(** * GoldenSeed API: a shallow embedding of [api/main.py] and [api/database.py]

    The API fronts a deterministic chunk generator with bearer-key
    authentication, a per-minute rate limit, a monthly quota and a usage log.
    This development embeds the request path of the two source files as
    executable Rocq functions over an explicit world state, and states the
    properties of the specification about them.

    Conventions.
    - Python [str] values are [string]s whose characters are the code points
      0..255 (the range an HTTP header value can carry); [bytes] values are
      [list byte]; Python [int]s are [Z].
    - A Python function that can raise returns a [result]; one that reads or
      writes the backing store, the call log or the clock lives in the monad
      [M] of section "Effects".
    - [hashlib.sha256] is FIPS 180-4 SHA-256, written out in module [SHA256].
    - Python [float] is IEEE 754 binary64, taken from the primitive floats. *)

From Stdlib Require Import ZArith List String Ascii Bool Lia.
From Stdlib Require Import Strings.Byte DecimalString QArith Qabs.
From Stdlib Require Import Uint63 Floats.
Import ListNotations.

Local Open Scope Z_scope.
Local Open Scope string_scope.

(* ================================================================== *)
(** * Python strings and bytes *)

Module Py.

(** [s.startswith(p)] *)
Definition startswith (s p : string) : bool := String.prefix p s.

(** The tail of [s.replace(old, new)] once [skip] characters of an occurrence
    already matched remain to be dropped. Occurrences are taken left to
    right and do not overlap. *)
Fixpoint replace_from (old new : string) (skip : nat) (s : string) : string :=
  match s with
  | EmptyString => EmptyString
  | String c s' =>
      match skip with
      | S k => replace_from old new k s'
      | O =>
          if String.prefix old s
          then new ++ replace_from old new (String.length old - 1) s'
          else String c (replace_from old new 0 s')
      end
  end.

(** [new] placed before every character and at the end: what [replace] does
    with an empty [old]. *)
Fixpoint interleave (new s : string) : string :=
  match s with
  | EmptyString => new
  | String c s' => new ++ String c (interleave new s')
  end.

(** [s.replace(old, new)]: every occurrence of [old] replaced. *)
Definition replace (s old new : string) : string :=
  match old with
  | EmptyString => interleave new s
  | _ => replace_from old new 0 s
  end.

(** [s[n:]] *)
Fixpoint drop (n : nat) (s : string) : string :=
  match n, s with
  | O, _ => s
  | S k, EmptyString => EmptyString
  | S k, String _ s' => drop k s'
  end.

(** [s[:n]] *)
Fixpoint take (n : nat) (s : string) : string :=
  match n, s with
  | O, _ => EmptyString
  | S k, EmptyString => EmptyString
  | S k, String c s' => String c (take k s')
  end.

(** [str(n)] for an [int]. *)
Definition str_of_int (z : Z) : string := NilZero.string_of_int (Z.to_int z).

(** Thousands separators, working on the reversed digits: a comma before
    every digit that follows a complete group of three. *)
Fixpoint group3 (k : nat) (l : list ascii) : list ascii :=
  match l with
  | [] => []
  | c :: r =>
      match k with
      | O => ","%char :: c :: group3 2 r
      | S k' => c :: group3 k' r
      end
  end.

(** [format(n, ",")], the [{n:,}] of an f-string. *)
Definition format_commas (z : Z) : string :=
  let digits := list_ascii_of_string (NilZero.string_of_uint (N.to_uint (Z.to_N (Z.abs z)))) in
  (if (z <? 0)%Z then "-" else "") ++
  string_of_list_ascii (rev (group3 3 (rev digits))).

(** One lowercase hexadecimal digit. *)
Definition hex_digit (n : N) : ascii :=
  match n with
  | 0 => "0" | 1 => "1" | 2 => "2" | 3 => "3" | 4 => "4" | 5 => "5"
  | 6 => "6" | 7 => "7" | 8 => "8" | 9 => "9" | 10 => "a" | 11 => "b"
  | 12 => "c" | 13 => "d" | 14 => "e" | _ => "f"
  end%N%char.

Definition byte_hex (b : byte) : string :=
  let n := Byte.to_N b in
  String (hex_digit (n / 16)) (String (hex_digit (n mod 16)) EmptyString).

(** [bs.hex()] *)
Fixpoint hex (bs : list byte) : string :=
  match bs with
  | [] => EmptyString
  | b :: r => byte_hex b ++ hex r
  end.



Definition is_lower_hex (c : ascii) : bool :=
  let n := N_of_ascii c in
  (((48 <=? n) && (n <=? 57)) || ((97 <=? n) && (n <=? 102)))%N.

Fixpoint all_chars (p : ascii -> bool) (s : string) : bool :=
  match s with
  | EmptyString => true
  | String c s' => p c && all_chars p s'
  end.

Definition byte_of_Z (z : Z) : byte :=
  match Byte.of_N (Z.to_N (z mod 256)) with
  | Some b => b
  | None => x00
  end.

(** UTF-8 of one code point below 256. *)
Definition utf8_char (c : ascii) : list byte :=
  let n := Z.of_N (N_of_ascii c) in
  if (n <? 128)%Z then [byte_of_Z n]
  else [byte_of_Z (Z.lor 192 (Z.shiftr n 6)); byte_of_Z (Z.lor 128 (Z.land n 63))].

(** [s.encode()] *)
Fixpoint encode (s : string) : list byte :=
  match s with
  | EmptyString => []
  | String c s' => utf8_char c ++ encode s'
  end.

End Py.

(* ================================================================== *)
(** * SHA-256 (FIPS 180-4), the [hashlib.sha256] of both source files *)

Module SHA256.

Local Open Scope list_scope.

Definition mask32 : Z := 4294967295.
Definition wrap (x : Z) : Z := x mod 4294967296.
Definition add32 (x y : Z) : Z := wrap (x + y).
Definition rotr (n x : Z) : Z :=
  Z.lor (Z.shiftr x n) (wrap (Z.shiftl x (32 - n))).
Definition shr (n x : Z) : Z := Z.shiftr x n.
Definition not32 (x : Z) : Z := Z.lxor x mask32.

Definition Ch (x y z : Z) : Z := Z.lxor (Z.land x y) (Z.land (not32 x) z).
Definition Maj (x y z : Z) : Z :=
  Z.lxor (Z.lxor (Z.land x y) (Z.land x z)) (Z.land y z).
Definition bsig0 (x : Z) : Z := Z.lxor (Z.lxor (rotr 2 x) (rotr 13 x)) (rotr 22 x).
Definition bsig1 (x : Z) : Z := Z.lxor (Z.lxor (rotr 6 x) (rotr 11 x)) (rotr 25 x).
Definition ssig0 (x : Z) : Z := Z.lxor (Z.lxor (rotr 7 x) (rotr 18 x)) (shr 3 x).
Definition ssig1 (x : Z) : Z := Z.lxor (Z.lxor (rotr 17 x) (rotr 19 x)) (shr 10 x).

(** The round constants: the first 32 bits of the fractional parts of the
    cube roots of the first 64 primes. *)
Definition K : list Z :=
  [ 1116352408; 1899447441; 3049323471; 3921009573; 961987163; 1508970993;
    2453635748; 2870763221; 3624381080; 310598401; 607225278; 1426881987;
    1925078388; 2162078206; 2614888103; 3248222580; 3835390401; 4022224774;
    264347078; 604807628; 770255983; 1249150122; 1555081692; 1996064986;
    2554220882; 2821834349; 2952996808; 3210313671; 3336571891; 3584528711;
    113926993; 338241895; 666307205; 773529912; 1294757372; 1396182291;
    1695183700; 1986661051; 2177026350; 2456956037; 2730485921; 2820302411;
    3259730800; 3345764771; 3516065817; 3600352804; 4094571909; 275423344;
    430227734; 506948616; 659060556; 883997877; 958139571; 1322822218;
    1537002063; 1747873779; 1955562222; 2024104815; 2227730452; 2361852424;
    2428436474; 2756734187; 3204031479; 3329325298 ].

(** The eight working variables, also the chaining value. *)
Record regs := Regs { ra : Z; rb : Z; rc : Z; rd : Z; re : Z; rf : Z; rg : Z; rh : Z }.

(** The initial chaining value: the first 32 bits of the fractional parts
    of the square roots of the first 8 primes. *)
Definition H0 : regs :=
  Regs 1779033703 3144134277 1013904242 2773480762
       1359893119 2600822924 528734635 1541459225.

(** Big-endian bytes of the low [8 * n] bits of [x]. *)
Fixpoint be_bytes (n : nat) (x : Z) : list byte :=
  match n with
  | O => []
  | S k => Py.byte_of_Z (Z.shiftr x (8 * Z.of_nat k)) :: be_bytes k x
  end.

Definition be_word (bs : list byte) : Z :=
  fold_left (fun acc b => acc * 256 + Z.of_N (Byte.to_N b)) bs 0.

(** Padding: a one bit, zeros up to 56 mod 64, then the bit length on 64 bits. *)
Definition pad (msg : list byte) : list byte :=
  let len := Z.of_nat (List.length msg) in
  let zeros := Z.to_nat ((55 - len) mod 64) in
  msg ++ x80 :: repeat x00 zeros ++ be_bytes 8 (8 * len).

(** The 32-bit words of a byte string, four bytes each. *)
Fixpoint words (fuel : nat) (bs : list byte) : list Z :=
  match fuel with
  | O => []
  | S k =>
      match bs with
      | [] => []
      | _ => be_word (firstn 4 bs) :: words k (skipn 4 bs)
      end
  end.

(** The message schedule, newest word first: [n] more words after [ws]. *)
Fixpoint extend (n : nat) (ws : list Z) : list Z :=
  match n with
  | O => ws
  | S k =>
      let w := add32 (add32 (ssig1 (nth 1 ws 0)) (nth 6 ws 0))
                     (add32 (ssig0 (nth 14 ws 0)) (nth 15 ws 0)) in
      extend k (w :: ws)
  end.

Definition schedule (block : list Z) : list Z := rev (extend 48 (rev block)).

Definition round (r : regs) (kw : Z * Z) : regs :=
  let t1 := add32 (add32 (add32 (rh r) (bsig1 (re r))) (Ch (re r) (rf r) (rg r)))
                  (add32 (fst kw) (snd kw)) in
  let t2 := add32 (bsig0 (ra r)) (Maj (ra r) (rb r) (rc r)) in
  Regs (add32 t1 t2) (ra r) (rb r) (rc r) (add32 (rd r) t1) (re r) (rf r) (rg r).

Definition compress (h : regs) (block : list Z) : regs :=
  let r := fold_left round (combine K (schedule block)) h in
  Regs (add32 (ra h) (ra r)) (add32 (rb h) (rb r)) (add32 (rc h) (rc r))
       (add32 (rd h) (rd r)) (add32 (re h) (re r)) (add32 (rf h) (rf r))
       (add32 (rg h) (rg r)) (add32 (rh h) (rh r)).

(** Every 16-word block in turn. *)
Fixpoint blocks (fuel : nat) (h : regs) (ws : list Z) : regs :=
  match fuel with
  | O => h
  | S k =>
      match ws with
      | [] => h
      | _ => blocks k (compress h (firstn 16 ws)) (skipn 16 ws)
      end
  end.

(** [hashlib.sha256(msg).digest()] *)
Definition digest (msg : list byte) : list byte :=
  let p := pad msg in
  let ws := words (List.length p) p in
  let h := blocks (List.length ws) H0 ws in
  be_bytes 4 (ra h) ++ be_bytes 4 (rb h) ++ be_bytes 4 (rc h) ++ be_bytes 4 (rd h) ++
  be_bytes 4 (re h) ++ be_bytes 4 (rf h) ++ be_bytes 4 (rg h) ++ be_bytes 4 (rh h).

(** [hashlib.sha256(msg).hexdigest()] *)
Definition hexdigest (msg : list byte) : string := Py.hex (digest msg).

End SHA256.

(* ================================================================== *)
(** * Data model *)

(** The rows of the four tables of the backing store. *)
Record ApiKeyRow := {
  key_id : string;
  key_user_id : string;
  key_hash : string;
  key_prefix : string;
  key_name : string;
  key_active : bool;
  key_last_used_at : option string
}.

Record UserRow := {
  usr_id : string;
  usr_email : string
}.

Record SubscriptionRow := {
  sub_user_id : string;
  sub_tier : string;
  sub_chunks_limit : Z;
  sub_rate_limit : Z;
  sub_active : bool
}.

Record UsageLogRow := {
  log_user_id : string;
  log_api_key_id : string;
  log_endpoint : string;
  log_chunks_generated : Z;
  log_response_time_ms : Z;
  log_status_code : Z
}.

(** The dict returned by a successful authentication. *)
Record Principal := {
  user_id : string;
  api_key_id : string;
  email : string;
  tier : string;
  chunks_limit : Z;
  rate_limit : Z
}.

Inductive Format := hex | json | binary.

(** [GenerateRequest] of main.py. *)
Record GenerateRequest := {
  seed : Z;
  chunks : Z;
  format : Format;
  skip : Z
}.

(** [BatchRequest] of main.py. *)
Record BatchRequest := {
  seeds : list Z;
  chunks_per_seed : Z
}.

(** An element of the [data] list the handler builds: a [str] for the hex and
    binary formats, a list of byte values for json. *)
Inductive DataItem :=
| item_str (s : string)
| item_ints (l : list Z).

(** [GenerateResponse] of main.py; [data] is declared [List[str]]. *)
Record GenerateResponse := {
  data : list string;
  hash : string;
  chunks_generated : Z;
  response_seed : Z;
  verification_url : string
}.

Record CoinFlipStatsResponse := {
  heads : Z;
  tails : Z;
  total : Z;
  heads_ratio : float;
  perfect_balance : bool;
  message : string
}.

(* ================================================================== *)
(** * Exceptions and results *)

Inductive exn :=
| HTTPException (status_code : Z) (detail : string)
| RequestValidationError (field : string)
| Exception (msg : string).

Inductive result (A : Type) :=
| Ok (a : A)
| Raise (e : exn).

Arguments Ok {A} a.
Arguments Raise {A} e.

(** [str(e)] *)
Definition str_exn (e : exn) : string :=
  match e with
  | HTTPException s d => Py.str_of_int s ++ ": " ++ d
  | RequestValidationError f => f
  | Exception m => m
  end.

(** The status of the HTTP response: 200 for a returned body, the status of
    an [HTTPException], 422 for a rejected request body or query, 500 for
    any exception nothing handles. *)
Definition status {A : Type} (r : result A) : Z :=
  match r with
  | Ok _ => 200
  | Raise (HTTPException s _) => s
  | Raise (RequestValidationError _) => 422
  | Raise (Exception _) => 500
  end.

(* ================================================================== *)
(** * The world: configuration, backing store, call log *)

(** The operations main.py and database.py run against the store. *)
Inductive Op :=
| SelectApiKeys
| SelectUsers
| SelectSubscriptions
| UpdateApiKeys
| InsertUsageLogs
| RpcGetMonthlyUsage
| RpcCheckRateLimit.

(** The Supabase client with the store behind it. The two stored procedures
    belong to the database; they are taken as they answer, [None] for a null
    result. [failing op] is the error the store currently answers [op] with,
    if any. *)
Record Client := {
  api_keys : list ApiKeyRow;
  users : list UserRow;
  subscriptions : list SubscriptionRow;
  usage_logs : list UsageLogRow;
  rpc_get_monthly_usage : string -> option Z;
  rpc_check_rate_limit : string -> Z -> option bool;
  failing : Op -> option string
}.

(** The calls the call log records. *)
Inductive Call :=
| call_verify_api_key (authorization : option string)
| call_db_verify_api_key (key : string)
| call_check_rate_limit (uid : string) (limit : Z)
| call_get_monthly_usage (uid : string)
| call_log_usage (row : UsageLogRow)
| call_generate (request : GenerateRequest).

(** [DATABASE_AVAILABLE] is the flag of main.py (the import of the database
    module succeeded), [supabase] the global of database.py. [calls] is a
    ghost log of the calls made, oldest first. [utcnow] and [elapsed_ms]
    stand for [datetime.utcnow().isoformat()] and for the measured
    [int((time.time() - start_time) * 1000)]. *)
Record World := {
  DATABASE_AVAILABLE : bool;
  supabase : option Client;
  calls : list Call;
  utcnow : string;
  elapsed_ms : Z
}.

Definition set_supabase (w : World) (c : Client) : World :=
  {| DATABASE_AVAILABLE := DATABASE_AVAILABLE w;
     supabase := Some c;
     calls := calls w;
     utcnow := utcnow w;
     elapsed_ms := elapsed_ms w |}.

Definition add_call (w : World) (c : Call) : World :=
  {| DATABASE_AVAILABLE := DATABASE_AVAILABLE w;
     supabase := supabase w;
     calls := (calls w ++ [c])%list;
     utcnow := utcnow w;
     elapsed_ms := elapsed_ms w |}.

(* ================================================================== *)
(** * Effects: state and exceptions *)

Definition M (A : Type) : Type := World -> result A * World.

Definition ret {A : Type} (a : A) : M A := fun w => (Ok a, w).

Definition raise {A : Type} (e : exn) : M A := fun w => (Raise e, w).

Definition bind {A B : Type} (m : M A) (k : A -> M B) : M B :=
  fun w =>
    match m w with
    | (Ok a, w') => k a w'
    | (Raise e, w') => (Raise e, w')
    end.

(** [try: m  except Exception as e: handler e]. What [m] did to the world
    before raising stays done. *)
Definition try_except {A : Type} (m : M A) (handler : exn -> M A) : M A :=
  fun w =>
    match m w with
    | (Ok a, w') => (Ok a, w')
    | (Raise e, w') => handler e w'
    end.

Definition get_world : M World := fun w => (Ok w, w).

Definition record_call (c : Call) : M unit := fun w => (Ok tt, add_call w c).

Definition lift {A : Type} (r : result A) : M A := fun w => (r, w).

Declare Scope monad_scope.
Delimit Scope monad_scope with monad.
Notation "x <- m ;; k" := (bind m (fun x => k))
  (at level 61, m at next level, right associativity) : monad_scope.
Notation "m ;; k" := (bind m (fun _ => k))
  (at level 61, right associativity) : monad_scope.
Local Open Scope monad_scope.

(** [for x in xs: results.append(await f(x))] *)
Fixpoint for_each {A B : Type} (f : A -> M B) (xs : list A) : M (list B) :=
  match xs with
  | [] => ret []
  | x :: r =>
      y <- f x ;;
      ys <- for_each f r ;;
      ret (y :: ys)
  end%list.

(** One request to the store: it raises when there is no client or when the
    store answers [op] with an error, and otherwise runs [f] on the tables. *)
Definition store_call {A : Type} (op : Op) (f : Client -> A * Client) : M A :=
  fun w =>
    match supabase w with
    | None => (Raise (Exception "'NoneType' object has no attribute 'table'"), w)
    | Some c =>
        match failing c op with
        | Some err => (Raise (Exception err), w)
        | None => let (a, c') := f c in (Ok a, set_supabase w c')
        end
    end.

Definition set_api_keys (c : Client) (rows : list ApiKeyRow) : Client :=
  {| api_keys := rows;
     users := users c;
     subscriptions := subscriptions c;
     usage_logs := usage_logs c;
     rpc_get_monthly_usage := rpc_get_monthly_usage c;
     rpc_check_rate_limit := rpc_check_rate_limit c;
     failing := failing c |}.

Definition set_usage_logs (c : Client) (rows : list UsageLogRow) : Client :=
  {| api_keys := api_keys c;
     users := users c;
     subscriptions := subscriptions c;
     usage_logs := rows;
     rpc_get_monthly_usage := rpc_get_monthly_usage c;
     rpc_check_rate_limit := rpc_check_rate_limit c;
     failing := failing c |}.

Definition touch (now : string) (id : string) (k : ApiKeyRow) : ApiKeyRow :=
  if String.eqb (key_id k) id
  then {| key_id := key_id k;
          key_user_id := key_user_id k;
          key_hash := key_hash k;
          key_prefix := key_prefix k;
          key_name := key_name k;
          key_active := key_active k;
          key_last_used_at := Some now |}
  else k.

(* ================================================================== *)
(** * database.py *)

(** [hash_api_key] *)
Definition hash_api_key (key : string) : string :=
  SHA256.hexdigest (Py.encode key).

(** [table("api_keys").select(..).eq("key_hash", h).eq("active", True)] *)
Definition select_api_keys (h : string) : M (list ApiKeyRow) :=
  store_call SelectApiKeys (fun c =>
    (filter (fun k => String.eqb (key_hash k) h && key_active k) (api_keys c), c)).

(** [table("users").select(..).eq("id", uid)] *)
Definition select_users (uid : string) : M (list UserRow) :=
  store_call SelectUsers (fun c =>
    (filter (fun u => String.eqb (usr_id u) uid) (users c), c)).

(** [table("subscriptions").select(..).eq("user_id", uid).eq("active", True)] *)
Definition select_subscriptions (uid : string) : M (list SubscriptionRow) :=
  store_call SelectSubscriptions (fun c =>
    (filter (fun s => String.eqb (sub_user_id s) uid && sub_active s) (subscriptions c), c)).

(** [table("api_keys").update({"last_used_at": now}).eq("id", id)] *)
Definition update_last_used_at (now id : string) : M unit :=
  store_call UpdateApiKeys (fun c =>
    (tt, set_api_keys c (map (touch now id) (api_keys c)))).

(** [table("usage_logs").insert(row)] *)
Definition insert_usage_log (row : UsageLogRow) : M unit :=
  store_call InsertUsageLogs (fun c =>
    (tt, set_usage_logs c (usage_logs c ++ [row])%list)).

(** [verify_api_key] of database.py: the principal of a key, [None] if
    invalid. *)
Definition db_verify_api_key (key : string) : M (option Principal) :=
  record_call (call_db_verify_api_key key) ;;
  w <- get_world ;;
  match supabase w with
  | None => ret None
  | Some _ =>
      let h := hash_api_key key in
      try_except
        (key_result <- select_api_keys h ;;
         match key_result with
         | [] => ret None
         | key_record :: _ =>
             let uid := key_user_id key_record in
             user_result <- select_users uid ;;
             match user_result with
             | [] => ret None
             | user :: _ =>
                 sub_result <- select_subscriptions uid ;;
                 match sub_result with
                 | [] => ret None
                 | subscription :: _ =>
                     update_last_used_at (utcnow w) (key_id key_record) ;;
                     ret (Some {| user_id := uid;
                                  api_key_id := key_id key_record;
                                  email := usr_email user;
                                  tier := sub_tier subscription;
                                  chunks_limit := sub_chunks_limit subscription;
                                  rate_limit := sub_rate_limit subscription |})
                 end
             end
         end)
        (fun _ => ret None)
  end.

(** [get_monthly_usage] *)
Definition get_monthly_usage (uid : string) : M Z :=
  record_call (call_get_monthly_usage uid) ;;
  w <- get_world ;;
  match supabase w with
  | None => ret 0
  | Some _ =>
      try_except
        (d <- store_call RpcGetMonthlyUsage (fun c => (rpc_get_monthly_usage c uid, c)) ;;
         ret (match d with
              | Some n => if (n =? 0)%Z then 0 else n
              | None => 0
              end))
        (fun _ => ret 0)
  end.

(** [check_rate_limit] *)
Definition check_rate_limit (uid : string) (limit : Z) : M bool :=
  record_call (call_check_rate_limit uid limit) ;;
  w <- get_world ;;
  match supabase w with
  | None => ret true
  | Some _ =>
      try_except
        (d <- store_call RpcCheckRateLimit (fun c => (rpc_check_rate_limit c uid limit, c)) ;;
         ret (match d with
              | Some b => if b then true else false
              | None => false
              end))
        (fun _ => ret true)
  end.

(** [log_usage] *)
Definition log_usage (row : UsageLogRow) : M unit :=
  record_call (call_log_usage row) ;;
  w <- get_world ;;
  match supabase w with
  | None => ret tt
  | Some _ => try_except (insert_usage_log row) (fun _ => ret tt)
  end.

(** ** Provisioning

    The inserts of the three provisioning functions. The store assigns the
    id of a new row; the token of a new key comes from the operating
    system's random source. Both are taken as they come, together with the
    errors the store answers an insert with and whether it returns the
    inserted row. *)

Inductive Table :=
| table_users
| table_subscriptions
| table_api_keys.

Record Supply := {
  insert_failing : Table -> option string;
  returns_rows : bool;
  next_user_id : string;
  next_key_id : string;
  token_urlsafe : string
}.

Definition set_users (c : Client) (rows : list UserRow) : Client :=
  {| api_keys := api_keys c;
     users := rows;
     subscriptions := subscriptions c;
     usage_logs := usage_logs c;
     rpc_get_monthly_usage := rpc_get_monthly_usage c;
     rpc_check_rate_limit := rpc_check_rate_limit c;
     failing := failing c |}.

Definition set_subscriptions (c : Client) (rows : list SubscriptionRow) : Client :=
  {| api_keys := api_keys c;
     users := users c;
     subscriptions := rows;
     usage_logs := usage_logs c;
     rpc_get_monthly_usage := rpc_get_monthly_usage c;
     rpc_check_rate_limit := rpc_check_rate_limit c;
     failing := failing c |}.

(** One insert: it raises when there is no client or when the store answers
    with an error, and otherwise runs [f] on the tables. *)
Definition store_insert {A : Type} (env : Supply) (t : Table)
    (f : Client -> A * Client) : M A :=
  fun w =>
    match supabase w with
    | None => (Raise (Exception "'NoneType' object has no attribute 'table'"), w)
    | Some c =>
        match insert_failing env t with
        | Some err => (Raise (Exception err), w)
        | None => let (a, c') := f c in (Ok a, set_supabase w c')
        end
    end.

(** [create_user]: the id of the new user, [None] on failure. The billing
    reference goes to a column no function of the sources reads; the row
    model does not carry it. *)
Definition create_user (env : Supply) (email : string)
    (stripe_customer_id : option string) : M (option string) :=
  w <- get_world ;;
  match supabase w with
  | None => ret None
  | Some _ =>
      try_except
        (d <- store_insert env table_users (fun c =>
                let row := {| usr_id := next_user_id env; usr_email := email |} in
                ((if returns_rows env then [row] else [])%list,
                 set_users c (users c ++ [row])%list)) ;;
         match d with
         | row :: _ => ret (Some (usr_id row))
         | [] => ret None
         end%list)
        (fun _ => ret None)
  end.

(** [limits.get(tier, limits["free"])]: monthly chunks and requests per
    minute. *)
Definition tier_limits (tier : string) : Z * Z :=
  if String.eqb tier "free" then (10000, 100)%Z
  else if String.eqb tier "indie" then (1000000, 1000)%Z
  else if String.eqb tier "studio" then (10000000, 10000)%Z
  else if String.eqb tier "enterprise" then (100000000, 100000)%Z
  else (10000, 100)%Z.

(** [create_subscription]; the billing reference is again a column nothing
    reads. *)
Definition create_subscription (env : Supply) (uid tier : string)
    (stripe_subscription_id : option string) : M bool :=
  w <- get_world ;;
  match supabase w with
  | None => ret false
  | Some _ =>
      let limits := tier_limits tier in
      try_except
        (store_insert env table_subscriptions (fun c =>
           (tt, set_subscriptions c
                  (subscriptions c ++
                   [ {| sub_user_id := uid;
                        sub_tier := tier;
                        sub_chunks_limit := fst limits;
                        sub_rate_limit := snd limits;
                        sub_active := true |} ])%list)) ;;
         ret true)
        (fun _ => ret false)
  end.

(** [name or "Default API Key"] *)
Definition key_name_or_default (name : option string) : string :=
  match name with
  | None | Some EmptyString => "Default API Key"
  | Some n => n
  end.

(** [create_api_key]: the raw key, [None] on failure. *)
Definition create_api_key (env : Supply) (uid : string) (name : option string)
  : M (option string) :=
  w <- get_world ;;
  match supabase w with
  | None => ret None
  | Some _ =>
      let key := "gs_" ++ token_urlsafe env in
      let h := hash_api_key key in
      let prefix := Py.take 11 key in
      try_except
        (store_insert env table_api_keys (fun c =>
           (tt, set_api_keys c
                  (api_keys c ++
                   [ {| key_id := next_key_id env;
                        key_user_id := uid;
                        key_hash := h;
                        key_prefix := prefix;
                        key_name := key_name_or_default name;
                        key_active := true;
                        key_last_used_at := None |} ])%list)) ;;
         ret (Some key))
        (fun _ => ret None)
  end.

(* ================================================================== *)
(** * Library functions main.py calls *)

Module Base64.

Definition alphabet : string :=
  "ABCDEFGHIJKLMNOPQRSTUVWXYZabcdefghijklmnopqrstuvwxyz0123456789+/".

Definition char (n : Z) : ascii :=
  match String.get (Z.to_nat n) alphabet with
  | Some c => c
  | None => "="%char
  end.

Definition val (b : byte) : Z := Z.of_N (Byte.to_N b).

(** [base64.b64encode(bs).decode()] *)
Fixpoint b64encode (bs : list byte) : string :=
  match bs with
  | [] => EmptyString
  | [a] =>
      String (char (Z.shiftr (val a) 2))
     (String (char (Z.shiftl (Z.land (val a) 3) 4)) "==")
  | [a; b] =>
      String (char (Z.shiftr (val a) 2))
     (String (char (Z.lor (Z.shiftl (Z.land (val a) 3) 4) (Z.shiftr (val b) 4)))
     (String (char (Z.shiftl (Z.land (val b) 15) 2)) "="))
  | a :: b :: c :: r =>
      String (char (Z.shiftr (val a) 2))
     (String (char (Z.lor (Z.shiftl (Z.land (val a) 3) 4) (Z.shiftr (val b) 4)))
     (String (char (Z.lor (Z.shiftl (Z.land (val b) 15) 2) (Z.shiftr (val c) 6)))
     (String (char (Z.land (val c) 63)) (b64encode r))))
  end.

End Base64.

Module PyFloat.

(** [float(n)], exact for an [int] below 2^53 in absolute value. *)
Definition of_int (z : Z) : float :=
  if (z <? 0)%Z
  then PrimFloat.opp (PrimFloat.of_uint63 (Uint63.of_Z (- z)))
  else PrimFloat.of_uint63 (Uint63.of_Z z).

(** The literals [0.5] and [0.001] of main.py: the binary64 values nearest
    to them. *)
Definition half : float := 0x1p-1%float.
Definition milli : float := 0x1.0624dd2f1a9fcp-10%float.

(** [round(x, 6)]: the exact value of [x] rounded to six decimals, ties to
    even, then the nearest binary64. *)
Definition round6 (x : float) : float :=
  match Prim2SF x with
  | S754_finite s m e =>
      let num := (Zpos m * 1000000 * 2 ^ Z.max e 0)%Z in
      let den := (2 ^ Z.max (- e) 0)%Z in
      let q := (num / den)%Z in
      let r := (num mod den)%Z in
      let n := if (2 * r <? den)%Z then q
               else if (den <? 2 * r)%Z then (q + 1)%Z
               else if Z.even q then q else (q + 1)%Z in
      let v := PrimFloat.div (of_int n) (of_int 1000000) in
      if s then PrimFloat.opp v else v
  | _ => x
  end.

End PyFloat.

(* ================================================================== *)
(** * The generator *)

(** [UniversalQKD] comes from a module that is not part of these sources. It
    is taken as any generator object: [gen_start] is the state of a fresh
    [UniversalQKD()], [gen_next] is [next(gen)], which yields a chunk and
    moves the state or raises. *)
Record Generator := {
  gen_state : Type;
  gen_start : gen_state;
  gen_next : gen_state -> result (list byte * gen_state)
}.

(** [range(n)] runs [n] times, not at all for a negative [n]. *)
Definition range (n : Z) : nat := Z.to_nat n.

(** [for _ in range(n): next(gen)] *)
Fixpoint advance (G : Generator) (n : nat) (g : gen_state G) : result (gen_state G) :=
  match n with
  | O => Ok g
  | S k =>
      match gen_next G g with
      | Ok (_, g') => advance G k g'
      | Raise e => Raise e
      end
  end.

(** [[next(gen) for _ in range(n)]] *)
Fixpoint take_chunks (G : Generator) (n : nat) (g : gen_state G)
  : result (list (list byte)) :=
  match n with
  | O => Ok []
  | S k =>
      match gen_next G g with
      | Ok (c, g') =>
          match take_chunks G k g' with
          | Ok cs => Ok (c :: cs)
          | Raise e => Raise e
          end
      | Raise e => Raise e
      end
  end%list.

(** The coin-flip loop: [n] more draws, counting the chunks whose first byte
    is odd. *)
Fixpoint flip (G : Generator) (n : nat) (g : gen_state G) (count : Z) : result Z :=
  match n with
  | O => Ok count
  | S k =>
      match gen_next G g with
      | Ok (c, g') =>
          match c with
          | [] => Raise (Exception "index out of range")
          | byte_val :: _ =>
              if Z.eqb (Z.land (Base64.val byte_val) 1) 0
              then flip G k g' count
              else flip G k g' (count + 1)
          end
      | Raise e => Raise e
      end
  end%list.

(* ================================================================== *)
(** * main.py *)

Definition demo_principal : Principal :=
  {| user_id := "demo-user";
     api_key_id := "demo-key";
     email := "demo@goldenseed.io";
     tier := "free";
     chunks_limit := 10000;
     rate_limit := 100 |}.

(** [api_key = authorization.replace("Bearer ", "")] *)
Definition api_key_of (authorization : string) : string :=
  Py.replace authorization "Bearer " "".

Definition rate_limit_detail (user : Principal) : string :=
  "Rate limit exceeded. Limit: " ++ Py.str_of_int (rate_limit user) ++ " requests/minute".

Definition quota_detail (user : Principal) : string :=
  "Monthly chunk limit exceeded. Limit: " ++ Py.format_commas (chunks_limit user) ++
  " chunks. Upgrade at https://goldenseed.io/pricing".

(** [verify_api_key] of main.py, the dependency of the authenticated
    endpoints. An absent header is [None]; [not authorization] also holds of
    the empty string. *)
Definition verify_api_key (authorization : option string) : M Principal :=
  record_call (call_verify_api_key authorization) ;;
  match authorization with
  | None | Some EmptyString =>
      raise (HTTPException 401 "Missing API key. Get one at https://goldenseed.io")
  | Some authorization =>
      if negb (Py.startswith authorization "Bearer ")
      then raise (HTTPException 401 "Invalid auth format. Use: Bearer gs_your_key")
      else
        let api_key := api_key_of authorization in
        w <- get_world ;;
        if negb (DATABASE_AVAILABLE w)
        then
          if String.eqb api_key "gs_demo_key_12345"
          then ret demo_principal
          else raise (HTTPException 403 "Invalid API key. Use gs_demo_key_12345 for testing.")
        else
          user <- db_verify_api_key api_key ;;
          match user with
          | None => raise (HTTPException 403 "Invalid or expired API key")
          | Some user =>
              within_limit <- check_rate_limit (user_id user) (rate_limit user) ;;
              if negb within_limit
              then raise (HTTPException 429 (rate_limit_detail user))
              else
                current_usage <- get_monthly_usage (user_id user) ;;
                if (chunks_limit user <=? current_usage)%Z
                then raise (HTTPException 429 (quota_detail user))
                else ret user
          end
  end.

(** The bounds the [Field]s of [GenerateRequest] declare. *)
Definition valid_GenerateRequest (r : GenerateRequest) : bool :=
  ((0 <=? seed r) && (1 <=? chunks r) && (chunks r <=? 10000) && (0 <=? skip r))%Z.

(** The bounds the [Field]s of [BatchRequest] declare. *)
Definition valid_BatchRequest (r : BatchRequest) : bool :=
  (Nat.leb (List.length (seeds r)) 10 &&
   (1 <=? chunks_per_seed r)%Z && (chunks_per_seed r <=? 1000)%Z).

(** [GenerateRequest(seed=.., chunks=.., format=..)] built by the code: the
    model validates its fields and raises otherwise. *)
Definition make_GenerateRequest (seed chunks : Z) (format : Format) : result GenerateRequest :=
  let r := {| seed := seed; chunks := chunks; format := format; skip := 0 |} in
  if valid_GenerateRequest r then Ok r
  else Raise (Exception "validation error for GenerateRequest").

(** The elements of [data] as the [List[str]] field takes them: a list is no
    [str]. *)
Fixpoint strings_of (items : list DataItem) : option (list string) :=
  match items with
  | [] => Some []
  | item_str s :: r =>
      match strings_of r with
      | Some l => Some (s :: l)
      | None => None
      end
  | item_ints _ :: _ => None
  end%list.

(** [GenerateResponse(data=.., hash=.., ..)]: the model validates [data]
    against its declared type and raises otherwise. *)
Definition make_GenerateResponse (items : list DataItem) (hash_value : string)
    (chunks_generated seed : Z) (verification_url : string) : result GenerateResponse :=
  match strings_of items with
  | Some l =>
      Ok {| data := l;
            hash := hash_value;
            chunks_generated := chunks_generated;
            response_seed := seed;
            verification_url := verification_url |}
  | None => Raise (Exception "validation error for GenerateResponse: data: str type expected")
  end.

(** What the handler receives as [req]: the request object when the
    framework calls it, whatever the caller passes otherwise. *)
Inductive ReqArg :=
| req_Request
| req_dict (p : Principal).

(** What the handler receives as [auth]: the dict the dependency returned
    when the framework calls it; the parameter's default, the [Depends(..)]
    marker itself, when a caller leaves it out. *)
Inductive AuthArg :=
| auth_dict (p : Principal)
| auth_Depends.

(** [auth[..]] *)
Definition subscript {A : Type} (auth : AuthArg) (field : Principal -> A) : result A :=
  match auth with
  | auth_dict p => Ok (field p)
  | auth_Depends => Raise (Exception "'Depends' object is not subscriptable")
  end.

Definition format_data (f : Format) (chunks_bytes : list (list byte)) : list DataItem :=
  match f with
  | hex => map (fun chunk => item_str (Py.hex chunk)) chunks_bytes
  | json => map (fun chunk => item_ints (map Base64.val chunk)) chunks_bytes
  | binary => map (fun chunk => item_str (Base64.b64encode chunk)) chunks_bytes
  end.

(** [abs(ratio - 0.5) < 0.001] *)
Definition perfect_of (ratio : float) : bool :=
  PrimFloat.ltb (PrimFloat.abs (PrimFloat.sub ratio PyFloat.half)) PyFloat.milli.

(** [heads / flips] *)
Definition true_div (a b : Z) : result float :=
  if (b =? 0)%Z then Raise (Exception "division by zero")
  else Ok (PrimFloat.div (PyFloat.of_int a) (PyFloat.of_int b)).

Section Handlers.

(** The generator class main.py imported, [None] when the import failed. *)
Variable UniversalQKD : option Generator.

(** The body of [generate] inside its [try]. *)
Definition generate_body (G : Generator) (request : GenerateRequest) (auth : AuthArg)
  : M GenerateResponse :=
  gen <- lift (advance G (range (skip request)) (gen_start G)) ;;
  gen <- lift (advance G (range (seed request)) gen) ;;
  chunks_bytes <- lift (take_chunks G (range (chunks request)) gen) ;;
  let data := format_data (format request) chunks_bytes in
  let combined := List.concat chunks_bytes in
  let hash_value := SHA256.hexdigest combined in
  let verification_url := "https://goldenseed.io/verify/" ++ Py.take 16 hash_value in
  w <- get_world ;;
  (if DATABASE_AVAILABLE w
   then
     uid <- lift (subscript auth user_id) ;;
     kid <- lift (subscript auth api_key_id) ;;
     log_usage {| log_user_id := uid;
                  log_api_key_id := kid;
                  log_endpoint := "/api/v1/generate";
                  log_chunks_generated := chunks request;
                  log_response_time_ms := elapsed_ms w;
                  log_status_code := 200 |}
   else ret tt) ;;
  lift (make_GenerateResponse data hash_value (chunks request) (seed request) verification_url).

(** [generate], the handler of POST /api/v1/generate. *)
Definition generate (request : GenerateRequest) (req : ReqArg) (auth : AuthArg)
  : M GenerateResponse :=
  record_call (call_generate request) ;;
  match UniversalQKD with
  | None => raise (HTTPException 500 "GoldenSeed library not available")
  | Some G =>
      try_except (generate_body G request auth)
        (fun e => raise (HTTPException 500 ("Generation failed: " ++ str_exn e)))
  end.

(** [batch_generate], the handler of POST /api/v1/batch. It calls [generate]
    with two positional arguments: the request and [auth]. *)
Definition batch_generate (request : BatchRequest) (auth : Principal)
  : M (list GenerateResponse) :=
  match UniversalQKD with
  | None => raise (HTTPException 500 "GoldenSeed library not available")
  | Some _ =>
      for_each
        (fun seed =>
           gen_request <- lift (make_GenerateRequest seed (chunks_per_seed request) hex) ;;
           generate gen_request (req_dict auth) auth_Depends)
        (seeds request)
  end.

(** [coinflip_stats], the handler of GET /api/v1/stats/coinflip. *)
Definition coinflip_stats (seed flips : Z) : result CoinFlipStatsResponse :=
  match UniversalQKD with
  | None => Raise (HTTPException 500 "GoldenSeed library not available")
  | Some G =>
      let body :=
        match advance G (range seed) (gen_start G) with
        | Raise e => Raise e
        | Ok gen =>
            match flip G (range flips) gen 0 with
            | Raise e => Raise e
            | Ok heads =>
                let tails := (flips - heads)%Z in
                match true_div heads flips with
                | Raise e => Raise e
                | Ok ratio =>
                    let perfect := perfect_of ratio in
                    Ok {| heads := heads;
                          tails := tails;
                          total := flips;
                          heads_ratio := PyFloat.round6 ratio;
                          perfect_balance := perfect;
                          message :=
                            if perfect
                            then "Generated " ++ Py.format_commas flips ++
                                 " flips with perfect distribution"
                            else "Distribution within expected variance" |}
                end
            end
        end in
      match body with
      | Ok r => Ok r
      | Raise e => Raise (HTTPException 500 ("Stats generation failed: " ++ str_exn e))
      end
  end.

(** ** The routes: what the framework does around a handler

    The dependency runs first; then the declared bounds of the body or query
    are checked; then the handler is called with the request object and the
    dependency's result. *)

Definition post_generate (authorization : option string) (body : GenerateRequest)
  : M GenerateResponse :=
  auth <- verify_api_key authorization ;;
  if valid_GenerateRequest body
  then generate body req_Request (auth_dict auth)
  else raise (RequestValidationError "body").

Definition post_batch (authorization : option string) (body : BatchRequest)
  : M (list GenerateResponse) :=
  auth <- verify_api_key authorization ;;
  if valid_BatchRequest body
  then batch_generate body auth
  else raise (RequestValidationError "body").

Definition get_coinflip (seed flips : Z) : result CoinFlipStatsResponse :=
  if ((0 <=? seed) && (1 <=? flips) && (flips <=? 1000000))%Z
  then coinflip_stats seed flips
  else Raise (RequestValidationError "query").

End Handlers.

(** [VerifyResponse] of main.py. *)
Record VerifyResponse := {
  valid : bool;
  verify_seed : option Z;
  verify_chunks : option Z;
  verify_message : string
}.

(** [verify], the handler of GET /api/v1/verify/{hash_prefix}. *)
Definition verify (hash_prefix : string) : VerifyResponse :=
  if Nat.ltb (String.length hash_prefix) 16
  then {| valid := false;
          verify_seed := None;
          verify_chunks := None;
          verify_message := "Hash prefix too short (min 16 chars)" |}
  else {| valid := true;
          verify_seed := None;
          verify_chunks := None;
          verify_message :=
            "Verification endpoint - full implementation requires database" |}.

(** The dict [health_check] returns. *)
Record HealthResponse := {
  health_status : string;
  goldenseed_available : bool;
  database_available : bool;
  mode : string;
  version : string
}.

(** [health_check], the handler of GET /api/v1/health. *)
Definition health_check (UniversalQKD : option Generator) (w : World) : HealthResponse :=
  {| health_status := "healthy";
     goldenseed_available :=
       match UniversalQKD with Some _ => true | None => false end;
     database_available := DATABASE_AVAILABLE w;
     mode := if DATABASE_AVAILABLE w then "production" else "demo";
     version := "1.0.0" |}.

(* ================================================================== *)
(** * Concrete generators and worlds *)

Module Sample.

(** Chunk number [n] is sixteen bytes, all of value [n mod 256]. *)
Definition counter : Generator :=
  {| gen_state := Z;
     gen_start := 0;
     gen_next := fun n => Ok (repeat (Py.byte_of_Z n) 16, n + 1)%Z |}.

(** The first [k] chunks start with an odd byte, the others with an even one. *)
Definition odd_first (k : Z) : Generator :=
  {| gen_state := Z;
     gen_start := 0;
     gen_next := fun n =>
       Ok (repeat (if (n <? k)%Z then x01 else x00) 16, n + 1)%Z |}.

Definition the_key : string := "gs_sample_key".

Definition key_row : ApiKeyRow :=
  {| key_id := "k1";
     key_user_id := "u1";
     key_hash := hash_api_key the_key;
     key_prefix := "gs_sample_k";
     key_name := "Default API Key";
     key_active := true;
     key_last_used_at := None |}.

Definition user_row : UserRow :=
  {| usr_id := "u1"; usr_email := "u1@example.org" |}.

Definition subscription_row : SubscriptionRow :=
  {| sub_user_id := "u1";
     sub_tier := "free";
     sub_chunks_limit := 10000;
     sub_rate_limit := 100;
     sub_active := true |}.

Definition client : Client :=
  {| api_keys := [ key_row ];
     users := [ user_row ];
     subscriptions := [ subscription_row ];
     usage_logs := [];
     rpc_get_monthly_usage := fun _ => Some 0;
     rpc_check_rate_limit := fun _ _ => Some true;
     failing := fun _ => None |}.

Definition with_failing (c : Client) (f : Op -> option string) : Client :=
  {| api_keys := api_keys c;
     users := users c;
     subscriptions := subscriptions c;
     usage_logs := usage_logs c;
     rpc_get_monthly_usage := rpc_get_monthly_usage c;
     rpc_check_rate_limit := rpc_check_rate_limit c;
     failing := f |}.

Definition with_usage (c : Client) (n : Z) : Client :=
  {| api_keys := api_keys c;
     users := users c;
     subscriptions := subscriptions c;
     usage_logs := usage_logs c;
     rpc_get_monthly_usage := fun _ => Some n;
     rpc_check_rate_limit := rpc_check_rate_limit c;
     failing := failing c |}.

(** The store reachable, the database module loaded. *)
Definition production (c : Client) : World :=
  {| DATABASE_AVAILABLE := true;
     supabase := Some c;
     calls := [];
     utcnow := "2024-01-01T00:00:00";
     elapsed_ms := 3 |}.

(** The database module absent: demo mode. *)
Definition demo : World :=
  {| DATABASE_AVAILABLE := false;
     supabase := None;
     calls := [];
     utcnow := "2024-01-01T00:00:00";
     elapsed_ms := 3 |}.

(** A generator that is exhausted after [k] chunks: [next] then raises
    [StopIteration], whose message is empty. *)
Definition exhausted_after (k : Z) : Generator :=
  {| gen_state := Z;
     gen_start := 0;
     gen_next := fun n =>
       if (n <? k)%Z then Ok (repeat x00 16, n + 1)%Z else Raise (Exception "") |}.

Definition insert_fails (op : Op) : option string :=
  match op with
  | InsertUsageLogs => Some "timeout"
  | _ => None
  end.

Definition sample_principal : Principal :=
  {| user_id := "u1"; api_key_id := "k1"; email := "u1@example.org";
     tier := "free"; chunks_limit := 10000; rate_limit := 100 |}.

(** A store that takes every insert, and the ids and token it hands out. *)
Definition supply : Supply :=
  {| insert_failing := fun _ => None;
     returns_rows := true;
     next_user_id := "u2";
     next_key_id := "k2";
     token_urlsafe := "Zk3-q_8sWnB0aXvT5yPLr2dEoGhJcMu7iN1fKlQ9xYw" |}.

Definition lookup_fails (op : Op) : option string :=
  match op with
  | SelectApiKeys => Some "connection reset"
  | _ => None
  end.

(** The sample client with the one key row carrying the digest of [key]. *)
Definition holding (key : string) : Client :=
  set_api_keys client
    [ {| key_id := "k1";
         key_user_id := "u1";
         key_hash := hash_api_key key;
         key_prefix := Py.take 11 key;
         key_name := "Default API Key";
         key_active := true;
         key_last_used_at := None |} ].

Definition update_fails (op : Op) : option string :=
  match op with
  | UpdateApiKeys => Some "connection reset"
  | _ => None
  end.

Definition rpc_fails (op : Op) : option string :=
  match op with
  | RpcGetMonthlyUsage | RpcCheckRateLimit => Some "connection reset"
  | _ => None
  end.

Definition bearer : option string := Some ("Bearer " ++ the_key).

Definition request (s c : Z) (f : Format) (k : Z) : GenerateRequest :=
  {| seed := s; chunks := c; format := f; skip := k |}.

End Sample.

(* ================================================================== *)
(** * Vocabulary of the properties *)

(** A key resolves on a client when some active key row carries its digest,
    the row's user exists and the user has an active subscription. *)
Definition resolvable (c : Client) (key : string) : bool :=
  existsb
    (fun k =>
       String.eqb (key_hash k) (hash_api_key key) && key_active k &&
       existsb (fun u => String.eqb (usr_id u) (key_user_id k)) (users c) &&
       existsb (fun s => String.eqb (sub_user_id s) (key_user_id k) && sub_active s)
               (subscriptions c))
    (api_keys c).

(** A key resolves in a world: on the client in production, against the one
    hardcoded key in demo mode. *)
Definition resolves (w : World) (key : string) : bool :=
  if DATABASE_AVAILABLE w
  then match supabase w with
       | Some c => resolvable c key
       | None => false
       end
  else String.eqb key "gs_demo_key_12345".

(** The two authenticated endpoints with their bodies. *)
Inductive Endpoint :=
| ep_generate (body : GenerateRequest)
| ep_batch (body : BatchRequest).

(** A request for the first chunk, in hex. *)
Definition one_chunk : Endpoint := ep_generate (Sample.request 0 1 hex 0).

Definition outcome {A : Type} (r : result A) : result unit :=
  match r with
  | Ok _ => Ok tt
  | Raise e => Raise e
  end.

(** A request to an authenticated endpoint: how it ends, and the world it
    leaves. *)
Definition respond (G : option Generator) (ep : Endpoint)
    (authorization : option string) (w : World) : result unit * World :=
  match ep with
  | ep_generate body =>
      let (r, w') := post_generate G authorization body w in (outcome r, w')
  | ep_batch body =>
      let (r, w') := post_batch G authorization body w in (outcome r, w')
  end.

Definition count (p : Call -> bool) (l : list Call) : nat :=
  List.length (filter p l).

Definition is_verify_api_key (c : Call) : bool :=
  match c with call_verify_api_key _ => true | _ => false end.

Definition is_db_verify_api_key (c : Call) : bool :=
  match c with call_db_verify_api_key _ => true | _ => false end.

Definition is_check_rate_limit (c : Call) : bool :=
  match c with call_check_rate_limit _ _ => true | _ => false end.

Definition is_get_monthly_usage (c : Call) : bool :=
  match c with call_get_monthly_usage _ => true | _ => false end.

(** The calls of admission control. *)
Definition is_admission (c : Call) : bool :=
  is_verify_api_key c || is_db_verify_api_key c ||
  is_check_rate_limit c || is_get_monthly_usage c.

(** The requests the generation handler was called with. *)
Fixpoint generate_requests (l : list Call) : list GenerateRequest :=
  match l with
  | [] => []
  | call_generate r :: l' => r :: generate_requests l'
  | _ :: l' => generate_requests l'
  end%list.

(** The usage log of the store. *)
Definition logged (w : World) : list UsageLogRow :=
  match supabase w with
  | Some c => usage_logs c
  | None => []
  end%list.

(** What a client sees of a generate response besides the echoed seed. *)
Definition payload (r : result GenerateResponse)
  : result (list string * string * Z * string) :=
  match r with
  | Ok x => Ok (data x, hash x, chunks_generated x, verification_url x)
  | Raise e => Raise e
  end.

(** What the dependency does with a well-formed header: the part of
    [verify_api_key] after the scheme check. *)
Definition admit_key (api_key : string) : M Principal :=
  w <- get_world ;;
  if negb (DATABASE_AVAILABLE w)
  then
    if String.eqb api_key "gs_demo_key_12345"
    then ret demo_principal
    else raise (HTTPException 403 "Invalid API key. Use gs_demo_key_12345 for testing.")
  else
    user <- db_verify_api_key api_key ;;
    match user with
    | None => raise (HTTPException 403 "Invalid or expired API key")
    | Some user =>
        within_limit <- check_rate_limit (user_id user) (rate_limit user) ;;
        if negb within_limit
        then raise (HTTPException 429 (rate_limit_detail user))
        else
          current_usage <- get_monthly_usage (user_id user) ;;
          if (chunks_limit user <=? current_usage)%Z
          then raise (HTTPException 429 (quota_detail user))
          else ret user
    end.

(** The store cannot answer [op]: no client is configured, or the store
    answers the operation with an error. *)
Definition store_down (w : World) (op : Op) : Prop :=
  match supabase w with
  | None => True
  | Some c => failing c op <> None
  end.

(** [old] occurs nowhere in [s]. *)
Fixpoint occurs_nowhere (old s : string) : bool :=
  match s with
  | EmptyString => true
  | String _ s' => negb (String.prefix old s) && occurs_nowhere old s'
  end.

(** The chunks a request asks for, from a fresh generator. *)
Definition chunk_stream (G : Generator) (request : GenerateRequest)
  : result (list (list byte)) :=
  match advance G (range (skip request)) (gen_start G) with
  | Raise e => Raise e
  | Ok g1 =>
      match advance G (range (seed request)) g1 with
      | Raise e => Raise e
      | Ok g2 => take_chunks G (range (chunks request)) g2
      end
  end.

(** What the [except] clause of [generate] makes of a result. *)
Definition generation_failed {A : Type} (r : result A) : result A :=
  match r with
  | Ok x => Ok x
  | Raise e => Raise (HTTPException 500 ("Generation failed: " ++ str_exn e))
  end.

Definition usage_row (p : Principal) (request : GenerateRequest) (w : World) : UsageLogRow :=
  {| log_user_id := user_id p;
     log_api_key_id := api_key_id p;
     log_endpoint := "/api/v1/generate";
     log_chunks_generated := chunks request;
     log_response_time_ms := elapsed_ms w;
     log_status_code := 200 |}.

Definition response_of (request : GenerateRequest) (cs : list (list byte))
  : result GenerateResponse :=
  make_GenerateResponse (format_data (format request) cs)
    (SHA256.hexdigest (List.concat cs)) (chunks request) (seed request)
    ("https://goldenseed.io/verify/" ++ Py.take 16 (SHA256.hexdigest (List.concat cs)))%string.




(** The calls admission control makes after it logged its own: none, or key
    resolution, then the rate-limit check, then the usage query, each only
    if the one before let the request through. *)
Inductive admission_calls (key : string) : list Call -> Prop :=
| admission_none :
    admission_calls key []
| admission_resolved :
    admission_calls key [call_db_verify_api_key key]
| admission_rate (uid : string) (limit : Z) :
    admission_calls key [call_db_verify_api_key key; call_check_rate_limit uid limit]
| admission_usage (uid : string) (limit : Z) :
    admission_calls key
      [call_db_verify_api_key key; call_check_rate_limit uid limit;
       call_get_monthly_usage uid].

(** What a contained call of the batch is made with. *)
Definition contained (body : BatchRequest) (r : GenerateRequest) : Prop :=
  format r = hex /\ skip r = 0%Z /\ chunks r = chunks_per_seed body /\
  In (seed r) (seeds body).

(** What the handler answers when it is called with the dict of an admitted
    request: a function of the request and the generator alone. *)
Definition generate_answer (G : option Generator) (body : GenerateRequest)
  : result GenerateResponse :=
  match G with
  | None => Raise (HTTPException 500 "GoldenSeed library not available")
  | Some G0 =>
      match chunk_stream G0 body with
      | Raise e => generation_failed (Raise e)
      | Ok cs => generation_failed (response_of body cs)
      end
  end.

(** What admission control may do to the store: stamp key rows, nothing
    else. *)
Definition only_stamped (c c' : Client) : Prop :=
  users c' = users c /\
  subscriptions c' = subscriptions c /\
  usage_logs c' = usage_logs c /\
  failing c' = failing c /\
  (api_keys c' = api_keys c \/
   exists now id, api_keys c' = map (touch now id) (api_keys c)).

(** The results of a list of calls in order, or the first failure. *)
Fixpoint first_failure {A : Type} (rs : list (result A)) : result (list A) :=
  match rs with
  | [] => Ok []
  | Raise e :: _ => Raise e
  | Ok x :: rest =>
      match first_failure rest with
      | Ok xs => Ok (x :: xs)
      | Raise e => Raise e
      end
  end.

(** What a contained call of a batch answers. *)
Definition contained_answer (G : option Generator) (avail : bool) (c s : Z)
  : result GenerateResponse :=
  match make_GenerateRequest s c hex with
  | Raise e => Raise e
  | Ok r =>
      match G with
      | None => Raise (HTTPException 500 "GoldenSeed library not available")
      | Some G0 =>
          match chunk_stream G0 r with
          | Raise e => generation_failed (Raise e)
          | Ok cs =>
              if avail
              then generation_failed
                     (Raise (Exception "'Depends' object is not subscriptable"))
              else generation_failed (response_of r cs)
          end
      end
  end.

(** The characters of [secrets.token_urlsafe]: letters, digits, '-', '_'. *)
Definition url_safe (c : ascii) : bool :=
  let n := N_of_ascii c in
  (((48 <=? n) && (n <=? 57)) || ((65 <=? n) && (n <=? 90)) ||
   ((97 <=? n) && (n <=? 122)) || (n =? 45) || (n =? 95))%N.

(* ================================================================== *)
(** * The library layer on known values *)

Example sha256_empty :
  SHA256.hexdigest [] =
  "e3b0c44298fc1c149afbf4c8996fb92427ae41e4649b934ca495991b7852b855".
Proof. vm_compute. reflexivity. Qed.

Example sha256_abc :
  SHA256.hexdigest (Py.encode "abc") =
  "ba7816bf8f01cfea414140de5dae2223b00361a396177a9cb410ff61f20015ad".
Proof. vm_compute. reflexivity. Qed.

Example sha256_two_blocks :
  SHA256.hexdigest
    (Py.encode "abcdbcdecdefdefgefghfghighijhijkijkljklmklmnlmnomnopnopq") =
  "248d6a61d20638b8e5c026930c3e6039a33ce45964ff2167f6ecedd419db06c1".
Proof. vm_compute. reflexivity. Qed.

Example format_commas_values :
  Py.format_commas 10000 = "10,000" /\
  Py.format_commas 1234567 = "1,234,567" /\
  Py.format_commas 999 = "999" /\
  Py.format_commas (-1000) = "-1,000".
Proof. vm_compute. repeat split. Qed.

Example replace_values :
  Py.replace "Bearer gs_key" "Bearer " "" = "gs_key" /\
  Py.replace "aaa" "aa" "b" = "ba" /\
  Py.replace "abc" "" "-" = "-a-b-c-".
Proof. vm_compute. repeat split. Qed.

Example b64encode_values :
  Base64.b64encode (Py.encode "hello world!") = "aGVsbG8gd29ybGQh" /\
  Base64.b64encode [x00; xff; x1a; x61] = "AP8aYQ==".
Proof. vm_compute. repeat split. Qed.

Example round6_values :
  PyFloat.round6 (PrimFloat.div (PyFloat.of_int 1) (PyFloat.of_int 3)) = 0x1.55553ef6b5d46p-2%float /\
  PyFloat.round6 (PrimFloat.div (PyFloat.of_int 49900) (PyFloat.of_int 100000)) =
    PrimFloat.div (PyFloat.of_int 499) (PyFloat.of_int 1000).
Proof. vm_compute. repeat split. Qed.

(* ================================================================== *)
(** * Properties of the library layer *)

Local Open Scope list_scope.

Lemma byte_hex_lower (b : byte) :
  Py.all_chars Py.is_lower_hex (Py.byte_hex b) = true.
Proof. destruct b; reflexivity. Qed.


Lemma hex_cons (b : byte) (bs : list byte) :
  exists c1 c2, Py.byte_hex b = String c1 (String c2 EmptyString) /\
                Py.hex (b :: bs) = String c1 (String c2 (Py.hex bs)).
Proof.
  exists (Py.hex_digit (Byte.to_N b / 16)), (Py.hex_digit (Byte.to_N b mod 16)).
  split; reflexivity.
Qed.

Lemma hex_length (bs : list byte) :
  String.length (Py.hex bs) = (2 * List.length bs)%nat.
Proof.
  induction bs as [|b bs IH]; [reflexivity|].
  destruct (hex_cons b bs) as (c1 & c2 & _ & ->).
  cbn [String.length List.length]. rewrite IH. lia.
Qed.

Lemma hex_lower (bs : list byte) :
  Py.all_chars Py.is_lower_hex (Py.hex bs) = true.
Proof.
  induction bs as [|b bs IH]; [reflexivity|].
  pose proof (byte_hex_lower b) as Hb.
  destruct (hex_cons b bs) as (c1 & c2 & E & ->).
  rewrite E in Hb. cbn [Py.all_chars] in *.
  apply andb_true_iff in Hb as [H1 Hb]. apply andb_true_iff in Hb as [H2 _].
  now rewrite H1, H2, IH.
Qed.


Lemma digest_length (msg : list byte) : List.length (SHA256.digest msg) = 32%nat.
Proof. unfold SHA256.digest. repeat rewrite List.length_app. reflexivity. Qed.

Lemma hexdigest_length (msg : list byte) :
  String.length (SHA256.hexdigest msg) = 64%nat.
Proof. unfold SHA256.hexdigest. now rewrite hex_length, digest_length. Qed.

(* ================================================================== *)
(** * Reasoning about the monad *)

Lemma Ok_inj {A : Type} (a b : A) : Ok a = Ok b -> a = b.
Proof. now intros [= ->]. Qed.

Lemma bind_Ok {A B : Type} (m : M A) (k : A -> M B) (w w' : World) (b : B) :
  bind m k w = (Ok b, w') ->
  exists a w1, m w = (Ok a, w1) /\ k a w1 = (Ok b, w').
Proof.
  unfold bind. destruct (m w) as [[a|e] w1]; [eauto | discriminate].
Qed.

Lemma bind_step {A B : Type} (m : M A) (k : A -> M B) (w w1 : World) (a : A) :
  m w = (Ok a, w1) -> bind m k w = k a w1.
Proof. unfold bind. now intros ->. Qed.

Lemma bind_raise {A B : Type} (m : M A) (k : A -> M B) (w w1 : World) (e : exn) :
  m w = (Raise e, w1) -> bind m k w = (Raise e, w1).
Proof. unfold bind. now intros ->. Qed.

Arguments hash_api_key : simpl never.
Arguments api_key_of : simpl never.
Arguments SHA256.hexdigest : simpl never.
Arguments SHA256.digest : simpl never.
Arguments Py.replace : simpl never.
Arguments Py.format_commas : simpl never.
Arguments Py.str_of_int : simpl never.
Arguments Py.startswith : simpl never.

Ltac unfold_monad :=
  unfold bind, ret, raise, try_except, get_world, record_call, lift, store_call in *.

Ltac break_match :=
  match goal with
  | |- context [match ?x with _ => _ end] => destruct x eqn:?
  end.

(* ================================================================== *)
(** * The store adapters *)

Lemma filter_head {A : Type} (p : A -> bool) (l : list A) (x : A) (r : list A) :
  filter p l = x :: r -> In x l /\ p x = true.
Proof.
  intros E. apply filter_In. rewrite E. now left.
Qed.

Lemma existsb_head {A : Type} (p : A -> bool) (l : list A) (x : A) (r : list A) :
  filter p l = x :: r -> existsb p l = true.
Proof.
  intros E. apply filter_head in E as [Hin Hp].
  apply existsb_exists. eauto.
Qed.

(** The adapters never raise, and each logs its own call and nothing else. *)
Lemma db_verify_api_key_total (key : string) (w : World) :
  exists o w', db_verify_api_key key w = (Ok o, w') /\
               calls w' = calls w ++ [call_db_verify_api_key key] /\
               DATABASE_AVAILABLE w' = DATABASE_AVAILABLE w.
Proof.
  unfold db_verify_api_key, select_api_keys, select_users, select_subscriptions,
    update_last_used_at.
  unfold_monad. destruct w as [avail [c|] log now ms]; cbn; [|eauto].
  destruct (failing c SelectApiKeys); [eauto|].
  destruct (filter _ (api_keys c)) as [|k ks]; cbn; [eauto|].
  destruct (failing c SelectUsers); [eauto|].
  destruct (filter _ (users c)) as [|u us]; cbn; [eauto|].
  destruct (failing c SelectSubscriptions); [eauto|].
  destruct (filter _ (subscriptions c)) as [|s ss]; cbn; [eauto|].
  destruct (failing c UpdateApiKeys); cbn; eauto.
Qed.

Lemma check_rate_limit_total (uid : string) (limit : Z) (w : World) :
  exists b w', check_rate_limit uid limit w = (Ok b, w') /\
               calls w' = calls w ++ [call_check_rate_limit uid limit] /\
               DATABASE_AVAILABLE w' = DATABASE_AVAILABLE w.
Proof.
  unfold check_rate_limit. unfold_monad.
  destruct w as [avail [c|] log now ms]; cbn; [|eauto].
  destruct (failing c RpcCheckRateLimit); cbn; eauto.
Qed.

Lemma get_monthly_usage_total (uid : string) (w : World) :
  exists n w', get_monthly_usage uid w = (Ok n, w') /\
               calls w' = calls w ++ [call_get_monthly_usage uid] /\
               DATABASE_AVAILABLE w' = DATABASE_AVAILABLE w.
Proof.
  unfold get_monthly_usage. unfold_monad.
  destruct w as [avail [c|] log now ms]; cbn; [|eauto].
  destruct (failing c RpcGetMonthlyUsage); cbn; eauto.
Qed.

Lemma log_usage_total (row : UsageLogRow) (w : World) :
  exists w', log_usage row w = (Ok tt, w') /\
             calls w' = calls w ++ [call_log_usage row] /\
             DATABASE_AVAILABLE w' = DATABASE_AVAILABLE w.
Proof.
  unfold log_usage, insert_usage_log. unfold_monad.
  destruct w as [avail [c|] log now ms]; cbn; [|eauto].
  destruct (failing c InsertUsageLogs); cbn; eauto.
Qed.

(** A key that does not resolve on the client is answered with [None]. *)
Lemma db_verify_api_key_unresolvable (key : string) (w : World) :
  match supabase w with
  | Some c => resolvable c key = false
  | None => True
  end ->
  exists w', db_verify_api_key key w = (Ok None, w').
Proof.
  unfold db_verify_api_key, select_api_keys, select_users, select_subscriptions,
    update_last_used_at.
  unfold_monad. destruct w as [avail [c|] log now ms]; cbn; [|eauto].
  intros Hres.
  destruct (failing c SelectApiKeys); [eauto|].
  destruct (filter _ (api_keys c)) as [|k ks] eqn:Ek; cbn; [eauto|].
  destruct (failing c SelectUsers); [eauto|].
  destruct (filter _ (users c)) as [|u us] eqn:Eu; cbn; [eauto|].
  destruct (failing c SelectSubscriptions); [eauto|].
  destruct (filter _ (subscriptions c)) as [|s ss] eqn:Es; cbn; [eauto|].
  exfalso.
  apply filter_head in Ek as [Hin Hk].
  apply existsb_head in Eu. apply existsb_head in Es.
  assert (resolvable c key = true) as Habs.
  { unfold resolvable. apply existsb_exists. exists k. split; [exact Hin|].
    rewrite Hk. cbn. now rewrite Eu, Es. }
  congruence.
Qed.

(* ================================================================== *)
(** * Admission control *)

Lemma verify_api_key_missing (w : World) :
  exists d, verify_api_key None w =
            (Raise (HTTPException 401 d), add_call w (call_verify_api_key None)).
Proof. unfold verify_api_key. unfold_monad. cbn. eauto. Qed.

Lemma verify_api_key_malformed (a : string) (w : World) :
  Py.startswith a "Bearer " = false ->
  exists d, verify_api_key (Some a) w =
            (Raise (HTTPException 401 d), add_call w (call_verify_api_key (Some a))).
Proof.
  intros Hp. unfold verify_api_key. unfold_monad. cbn.
  destruct a as [|ch a']; [eauto|]. rewrite Hp. cbn. eauto.
Qed.

Lemma verify_api_key_bearer (a : string) (w : World) :
  Py.startswith a "Bearer " = true ->
  verify_api_key (Some a) w =
  admit_key (api_key_of a) (add_call w (call_verify_api_key (Some a))).
Proof.
  intros Hp. unfold verify_api_key, admit_key.
  destruct a as [|ch a']; [discriminate|].
  unfold bind at 1. unfold record_call at 1. rewrite Hp. reflexivity.
Qed.

Lemma admit_key_unresolved (key : string) (w : World) :
  resolves w key = false ->
  exists d w', admit_key key w = (Raise (HTTPException 403 d), w').
Proof.
  unfold resolves, admit_key. intros Hres.
  unfold bind at 1. unfold get_world at 1.
  destruct (DATABASE_AVAILABLE w); cbn [negb].
  - destruct (db_verify_api_key_unresolvable key w) as [w' E].
    { destruct (supabase w); [exact Hres | exact I]. }
    rewrite (bind_step _ _ _ _ _ E). unfold raise. eauto.
  - rewrite Hres. unfold raise. eauto.
Qed.

Lemma respond_auth_raise (G : option Generator) (ep : Endpoint)
    (a : option string) (w w' : World) (e : exn) :
  verify_api_key a w = (Raise e, w') ->
  respond G ep a w = (Raise e, w').
Proof.
  intros E. destruct ep; unfold respond, post_generate, post_batch;
    rewrite (bind_raise _ _ _ _ _ E); reflexivity.
Qed.

(** A request to an authenticated endpoint fails with 401 when the
    Authorization header is absent, with 401 when the header does not start
    with "Bearer ", and with 403 when the key the code takes from the header
    does not resolve to an active key record with its user and an active
    subscription. *)
Lemma authentication_failures
    (G : option Generator) (ep : Endpoint) (w : World) :
  status (fst (respond G ep None w)) = 401 /\
  (forall a : string,
      Py.startswith a "Bearer " = false ->
      status (fst (respond G ep (Some a) w)) = 401) /\
  (forall a : string,
      Py.startswith a "Bearer " = true ->
      resolves w (api_key_of a) = false ->
      status (fst (respond G ep (Some a) w)) = 403).
Proof.
  split; [|split].
  - destruct (verify_api_key_missing w) as [d E].
    now rewrite (respond_auth_raise _ _ _ _ _ _ E).
  - intros a Hp. destruct (verify_api_key_malformed a w Hp) as [d E].
    now rewrite (respond_auth_raise _ _ _ _ _ _ E).
  - intros a Hp Hres.
    destruct (admit_key_unresolved (api_key_of a)
                (add_call w (call_verify_api_key (Some a)))) as (d & w' & E).
    { exact Hres. }
    rewrite <- verify_api_key_bearer in E by exact Hp.
    now rewrite (respond_auth_raise _ _ _ _ _ _ E).
Qed.

(** C3: when the key resolves and the rate-limit check passes, a monthly
    usage at or above the subscription's chunks_limit rejects the request
    with 429 and the quota message that carries the limit; the usage query
    comes after the rate-limit check, which comes after key resolution. *)
Theorem C3_quota_exceeded
    (G : option Generator) (ep : Endpoint) (a : string)
    (w w1 w2 w3 : World) (user : Principal) (usage : Z) :
  Py.startswith a "Bearer " = true ->
  DATABASE_AVAILABLE w = true ->
  db_verify_api_key (api_key_of a) (add_call w (call_verify_api_key (Some a)))
    = (Ok (Some user), w1) ->
  check_rate_limit (user_id user) (rate_limit user) w1 = (Ok true, w2) ->
  get_monthly_usage (user_id user) w2 = (Ok usage, w3) ->
  (chunks_limit user <= usage)%Z ->
  respond G ep (Some a) w =
    (Raise (HTTPException 429
       ("Monthly chunk limit exceeded. Limit: " ++ Py.format_commas (chunks_limit user) ++
        " chunks. Upgrade at https://goldenseed.io/pricing")), w3) /\
  calls w3 = calls w ++
    [ call_verify_api_key (Some a);
      call_db_verify_api_key (api_key_of a);
      call_check_rate_limit (user_id user) (rate_limit user);
      call_get_monthly_usage (user_id user) ].
Proof.
  intros Hp Hdb Ekey Erate Eusage Hquota.
  split.
  - apply respond_auth_raise.
    rewrite verify_api_key_bearer by exact Hp.
    unfold admit_key. unfold bind at 1. unfold get_world at 1.
    cbn [DATABASE_AVAILABLE add_call]. rewrite Hdb. cbn [negb].
    rewrite (bind_step _ _ _ _ _ Ekey).
    rewrite (bind_step _ _ _ _ _ Erate). cbn [negb].
    rewrite (bind_step _ _ _ _ _ Eusage).
    apply Z.leb_le in Hquota. rewrite Hquota. reflexivity.
  - destruct (db_verify_api_key_total (api_key_of a)
                (add_call w (call_verify_api_key (Some a)))) as (o & w1' & E1 & C1 & _).
    destruct (check_rate_limit_total (user_id user) (rate_limit user) w1)
      as (b & w2' & E2 & C2 & _).
    destruct (get_monthly_usage_total (user_id user) w2) as (n & w3' & E3 & C3 & _).
    rewrite Ekey in E1. rewrite Erate in E2. rewrite Eusage in E3.
    injection E1 as _ <-. injection E2 as _ <-. injection E3 as _ <-.
    rewrite C3, C2, C1. cbn [calls add_call].
    repeat rewrite <- app_assoc. reflexivity.
Qed.

Lemma C3_witness :
  let w := Sample.production (Sample.with_usage Sample.client 10000) in
  exists w3,
    respond (Some Sample.counter) one_chunk Sample.bearer w =
      (Raise (HTTPException 429
         "Monthly chunk limit exceeded. Limit: 10,000 chunks. Upgrade at https://goldenseed.io/pricing"),
       w3) /\
    calls w3 =
      [ call_verify_api_key Sample.bearer;
        call_db_verify_api_key "gs_sample_key";
        call_check_rate_limit "u1" 100;
        call_get_monthly_usage "u1" ].
Proof.
  intro w.
  pose (w0 := add_call w (call_verify_api_key Sample.bearer)).
  pose (r1 := db_verify_api_key "gs_sample_key" w0).
  pose (r2 := check_rate_limit "u1" 100 (snd r1)).
  pose (r3 := get_monthly_usage "u1" (snd r2)).
  exists (snd r3).
  apply (C3_quota_exceeded (Some Sample.counter) one_chunk
           ("Bearer " ++ Sample.the_key) w (snd r1) (snd r2) (snd r3)
           {| user_id := "u1"; api_key_id := "k1"; email := "u1@example.org";
              tier := "free"; chunks_limit := 10000; rate_limit := 100 |} 10000).
  - vm_compute. reflexivity.
  - reflexivity.
  - vm_compute. reflexivity.
  - vm_compute. reflexivity.
  - vm_compute. reflexivity.
  - cbn. lia.
Defined.

(* ================================================================== *)
(** * Fail-open defaults of the usage adapters *)

Lemma db_verify_api_key_down (key : string) (w : World) :
  store_down w SelectApiKeys ->
  exists w', db_verify_api_key key w = (Ok None, w').
Proof.
  unfold store_down, db_verify_api_key, select_api_keys. unfold_monad.
  destruct w as [avail [c|] log now ms]; cbn; [|eauto].
  destruct (failing c SelectApiKeys); [eauto | congruence].
Qed.

(** The claim C6 as stated fails: a failure of the store during admission
    control can surface as a request failure. The key of the sample client
    is served on the healthy store; when the store answers the key lookup
    with an error, key resolution answers [None] and the same request is
    refused with 403. *)
Lemma C6_lookup_failure_surfaces :
  status (fst (respond (Some Sample.counter) one_chunk Sample.bearer
                 (Sample.production Sample.client))) = 200 /\
  store_down (Sample.production (Sample.with_failing Sample.client Sample.lookup_fails))
             SelectApiKeys /\
  fst (respond (Some Sample.counter) one_chunk Sample.bearer
         (Sample.production (Sample.with_failing Sample.client Sample.lookup_fails))) =
    Raise (HTTPException 403 "Invalid or expired API key").
Proof.
  split; [vm_compute; reflexivity|].
  split; [vm_compute; discriminate | vm_compute; reflexivity].
Qed.

(** C6, amended: when the backing store is unreachable or raises, the
    rate-limit check returns true and the monthly-usage query returns 0;
    neither adapter ever raises, so a failure of the store in these two
    checks is not surfaced: a request whose key resolved is admitted during
    the outage whenever its subscription carries a positive limit. A failure
    of the store in key resolution is surfaced: with no client, or with the
    key lookup answered by an error, every request that carries a Bearer
    header is refused with 403 when the database module is loaded. *)
Theorem C6_fail_open (uid : string) (limit : Z) (w : World) :
  (store_down w RpcCheckRateLimit ->
   fst (check_rate_limit uid limit w) = Ok true) /\
  (store_down w RpcGetMonthlyUsage ->
   fst (get_monthly_usage uid w) = Ok 0%Z) /\
  (exists b, fst (check_rate_limit uid limit w) = Ok b) /\
  (exists n, fst (get_monthly_usage uid w) = Ok n) /\
  (forall (a : string) (user : Principal) (w1 : World),
      Py.startswith a "Bearer " = true ->
      DATABASE_AVAILABLE w = true ->
      db_verify_api_key (api_key_of a) (add_call w (call_verify_api_key (Some a)))
        = (Ok (Some user), w1) ->
      store_down w1 RpcCheckRateLimit ->
      store_down w1 RpcGetMonthlyUsage ->
      (0 < chunks_limit user)%Z ->
      fst (verify_api_key (Some a) w) = Ok user) /\
  (forall (G : option Generator) (ep : Endpoint) (a : string),
      Py.startswith a "Bearer " = true ->
      DATABASE_AVAILABLE w = true ->
      store_down w SelectApiKeys ->
      fst (respond G ep (Some a) w) =
        Raise (HTTPException 403 "Invalid or expired API key")).
Proof.
  assert (Hrate : forall u l w0, store_down w0 RpcCheckRateLimit ->
            exists w', check_rate_limit u l w0 = (Ok true, w') /\
                       supabase w' = supabase w0).
  { intros u l w0. unfold store_down, check_rate_limit. unfold_monad.
    destruct w0 as [avail [c|] log now ms]; cbn; [|eauto].
    destruct (failing c RpcCheckRateLimit); [eauto | congruence]. }
  assert (Husage : forall u w0, store_down w0 RpcGetMonthlyUsage ->
            exists w', get_monthly_usage u w0 = (Ok 0%Z, w')).
  { intros u w0. unfold store_down, get_monthly_usage. unfold_monad.
    destruct w0 as [avail [c|] log now ms]; cbn; [|eauto].
    destruct (failing c RpcGetMonthlyUsage); [eauto | congruence]. }
  split; [|split; [|split; [|split; [|split]]]].
  - intros Hd. destruct (Hrate uid limit w Hd) as (w' & -> & _). reflexivity.
  - intros Hd. destruct (Husage uid w Hd) as (w' & ->). reflexivity.
  - destruct (check_rate_limit_total uid limit w) as (b & w' & -> & _). now exists b.
  - destruct (get_monthly_usage_total uid w) as (n & w' & -> & _). now exists n.
  - intros a user w1 Hp Hdb Ekey Hd1 Hd2 Hpos.
    rewrite verify_api_key_bearer by exact Hp.
    unfold admit_key. unfold bind at 1. unfold get_world at 1.
    cbn [DATABASE_AVAILABLE add_call]. rewrite Hdb. cbn [negb].
    rewrite (bind_step _ _ _ _ _ Ekey).
    destruct (Hrate (user_id user) (rate_limit user) w1 Hd1) as (w2 & E2 & Hsame).
    rewrite (bind_step _ _ _ _ _ E2). cbn [negb].
    destruct (Husage (user_id user) w2) as (w3 & E3).
    { unfold store_down in *. now rewrite Hsame. }
    rewrite (bind_step _ _ _ _ _ E3).
    destruct (Z.leb_spec (chunks_limit user) 0); [lia | reflexivity].
  - intros G ep a Hp Hdb Hdown.
    destruct (db_verify_api_key_down (api_key_of a)
                (add_call w (call_verify_api_key (Some a)))) as (w1 & E1).
    { exact Hdown. }
    assert (E : verify_api_key (Some a) w =
                (Raise (HTTPException 403 "Invalid or expired API key"), w1)).
    { rewrite verify_api_key_bearer by exact Hp.
      unfold admit_key. unfold bind at 1. unfold get_world at 1.
      cbn [DATABASE_AVAILABLE add_call]. rewrite Hdb. cbn [negb].
      rewrite (bind_step _ _ _ _ _ E1). reflexivity. }
    now rewrite (respond_auth_raise _ _ _ _ _ _ E).
Qed.

Lemma C6_witness :
  let w := Sample.production (Sample.with_failing Sample.client Sample.rpc_fails) in
  fst (check_rate_limit "u1" 100 w) = Ok true /\
  fst (get_monthly_usage "u1" w) = Ok 0%Z /\
  fst (verify_api_key Sample.bearer w) =
    Ok {| user_id := "u1"; api_key_id := "k1"; email := "u1@example.org";
          tier := "free"; chunks_limit := 10000; rate_limit := 100 |} /\
  fst (respond (Some Sample.counter) one_chunk Sample.bearer
         (Sample.production (Sample.with_failing Sample.client Sample.lookup_fails))) =
    Raise (HTTPException 403 "Invalid or expired API key").
Proof.
  intro w.
  destruct (C6_fail_open "u1" 100 w) as (Hrate & Husage & _ & _ & Hadmit & _).
  split; [|split; [|split]].
  - apply Hrate. vm_compute. discriminate.
  - apply Husage. vm_compute. discriminate.
  - apply (Hadmit ("Bearer " ++ Sample.the_key)%string _
             (snd (db_verify_api_key "gs_sample_key"
                     (add_call w (call_verify_api_key Sample.bearer))))).
    + vm_compute. reflexivity.
    + reflexivity.
    + vm_compute. reflexivity.
    + vm_compute. discriminate.
    + vm_compute. discriminate.
    + cbn. lia.
  - apply (proj2 (proj2 (proj2 (proj2 (proj2
       (C6_fail_open "u1" 100
          (Sample.production (Sample.with_failing Sample.client Sample.lookup_fails)))))))
       (Some Sample.counter) one_chunk ("Bearer " ++ Sample.the_key)%string).
    + vm_compute. reflexivity.
    + reflexivity.
    + vm_compute. discriminate.
Defined.

(* ================================================================== *)
(** * The key taken from the header *)

Lemma replace_from_nowhere (old new s : string) :
  occurs_nowhere old s = true -> Py.replace_from old new 0 s = s.
Proof.
  induction s as [|c s IH]; [reflexivity|].
  cbn [occurs_nowhere Py.replace_from]. intros H.
  apply andb_true_iff in H as [Hp Hs].
  apply negb_true_iff in Hp. rewrite Hp. now rewrite IH.
Qed.

(** Where the key itself does not contain "Bearer ", the code passes on the
    header without its first seven characters. *)
Lemma api_key_of_plain (key : string) :
  occurs_nowhere "Bearer " key = true ->
  api_key_of ("Bearer " ++ key) = key /\ Py.drop 7 ("Bearer " ++ key) = key.
Proof.
  intros H. split; [|reflexivity].
  unfold api_key_of, Py.replace. cbn.
  replace (String.prefix "" key) with true by (now destruct key).
  now apply replace_from_nowhere.
Qed.

(** C7: for a header that starts with "Bearer ", the key passed to key
    resolution should be the header without its first seven characters. The
    code removes every occurrence of "Bearer ": for the header
    "Bearer aBearer b" the remainder is "aBearer b", and key resolution is
    called with "ab". *)
Theorem C7_inner_prefix_removed :
  let authorization := "Bearer aBearer b" in
  Py.startswith authorization "Bearer " = true /\
  Py.drop 7 authorization = "aBearer b" /\
  api_key_of authorization = "ab" /\
  calls (snd (verify_api_key (Some authorization) (Sample.production Sample.client))) =
    [ call_verify_api_key (Some authorization); call_db_verify_api_key "ab" ].
Proof. vm_compute. repeat split. Qed.

(* ================================================================== *)
(** * Key resolution and the last-used timestamp *)

(** The claim C5 as stated fails: the key of the sample client resolves (an
    active row with its digest, its user, an active subscription), the
    update of last_used_at raises, and resolution answers [None]; the
    request ends with 403. *)
Lemma C5_update_failure_fails_resolution :
  let c := Sample.with_failing Sample.client Sample.update_fails in
  resolvable c Sample.the_key = true /\
  fst (db_verify_api_key Sample.the_key (Sample.production c)) = Ok None /\
  status (fst (respond (Some Sample.counter) one_chunk Sample.bearer
                 (Sample.production c))) = 403.
Proof. vm_compute. repeat split. Qed.

(** C5, amended: for a raw key whose digest matches an active key row with
    an existing user and an active subscription, resolution returns the
    Principal when the update of last_used_at succeeds, and records the
    timestamp on the key row; when that update raises, the handler of the
    whole lookup catches the error and resolution returns [None], the store
    left as it was. *)
Theorem C5_resolution_and_last_used
    (key : string) (w : World) (c : Client)
    (key_record : ApiKeyRow) (ks : list ApiKeyRow)
    (user : UserRow) (us : list UserRow)
    (subscription : SubscriptionRow) (ss : list SubscriptionRow) :
  supabase w = Some c ->
  failing c SelectApiKeys = None ->
  failing c SelectUsers = None ->
  failing c SelectSubscriptions = None ->
  filter (fun k => String.eqb (key_hash k) (hash_api_key key) && key_active k)
         (api_keys c) = key_record :: ks ->
  filter (fun u => String.eqb (usr_id u) (key_user_id key_record))
         (users c) = user :: us ->
  filter (fun s => String.eqb (sub_user_id s) (key_user_id key_record) && sub_active s)
         (subscriptions c) = subscription :: ss ->
  let principal :=
    {| user_id := key_user_id key_record;
       api_key_id := key_id key_record;
       email := usr_email user;
       tier := sub_tier subscription;
       chunks_limit := sub_chunks_limit subscription;
       rate_limit := sub_rate_limit subscription |} in
  (failing c UpdateApiKeys = None ->
   fst (db_verify_api_key key w) = Ok (Some principal) /\
   option_map api_keys (supabase (snd (db_verify_api_key key w))) =
     Some (map (touch (utcnow w) (key_id key_record)) (api_keys c))) /\
  (failing c UpdateApiKeys <> None ->
   fst (db_verify_api_key key w) = Ok None /\
   supabase (snd (db_verify_api_key key w)) = Some c).
Proof.
  intros Hc Fk Fu Fs Ek Eu Es principal.
  unfold db_verify_api_key, select_api_keys, select_users, select_subscriptions,
    update_last_used_at.
  unfold_monad. destruct w as [avail sb log now ms]. cbn in Hc. subst sb. cbn.
  rewrite Fk, Ek. cbn. rewrite Fu, Eu. cbn. rewrite Fs, Es. cbn.
  split; intros Hupd.
  - rewrite Hupd. cbn. split; reflexivity.
  - destruct (failing c UpdateApiKeys); [|congruence]. cbn.
    split; [reflexivity|]. now destruct c.
Qed.

Lemma C5_witness :
  let principal :=
    {| user_id := "u1"; api_key_id := "k1"; email := "u1@example.org";
       tier := "free"; chunks_limit := 10000; rate_limit := 100 |} in
  fst (db_verify_api_key Sample.the_key (Sample.production Sample.client))
    = Ok (Some principal) /\
  fst (db_verify_api_key Sample.the_key
         (Sample.production (Sample.with_failing Sample.client Sample.update_fails)))
    = Ok None.
Proof.
  intro principal. split.
  - refine (proj1 (proj1 (C5_resolution_and_last_used Sample.the_key
      (Sample.production Sample.client) Sample.client
      Sample.key_row [] Sample.user_row [] Sample.subscription_row []
      eq_refl eq_refl eq_refl eq_refl _ _ _) eq_refl));
      vm_compute; reflexivity.
  - refine (proj1 (proj2 (C5_resolution_and_last_used Sample.the_key
      (Sample.production (Sample.with_failing Sample.client Sample.update_fails))
      (Sample.with_failing Sample.client Sample.update_fails)
      Sample.key_row [] Sample.user_row [] Sample.subscription_row []
      eq_refl eq_refl eq_refl eq_refl _ _ _) _)).
    + vm_compute; reflexivity.
    + vm_compute; reflexivity.
    + vm_compute; reflexivity.
    + vm_compute. discriminate.
Defined.

(* ================================================================== *)
(** * The generation handler *)

(** [generate] step by step: the call is logged; a generator failure ends
    the request; with the database module loaded the usage is logged before
    the response is built, and a missing [auth] dict ends the request before
    that. *)
Lemma generate_spec (G : Generator) (request : GenerateRequest)
    (req : ReqArg) (auth : AuthArg) (w : World) :
  generate (Some G) request req auth w =
  let w0 := add_call w (call_generate request) in
  match chunk_stream G request with
  | Raise e => (generation_failed (Raise e), w0)
  | Ok cs =>
      if DATABASE_AVAILABLE w
      then match auth with
           | auth_Depends =>
               (generation_failed
                  (Raise (Exception "'Depends' object is not subscriptable")), w0)
           | auth_dict p =>
               (generation_failed (response_of request cs),
                snd (log_usage (usage_row p request w) w0))
           end
      else (generation_failed (response_of request cs), w0)
  end.
Proof.
  unfold generate, generate_body, chunk_stream, response_of, usage_row.
  unfold bind at 1. unfold record_call at 1.
  unfold try_except, bind, lift, get_world, ret, raise.
  destruct (advance G (range (skip request)) (gen_start G)) as [g1|e]; [|reflexivity].
  destruct (advance G (range (seed request)) g1) as [g2|e]; [|reflexivity].
  destruct (take_chunks G (range (chunks request)) g2) as [cs|e]; [|reflexivity].
  cbn [DATABASE_AVAILABLE add_call elapsed_ms].
  destruct (DATABASE_AVAILABLE w).
  - destruct auth as [p|]; cbn [subscript]; [|reflexivity].
    destruct (log_usage_total
                {| log_user_id := user_id p;
                   log_api_key_id := api_key_id p;
                   log_endpoint := "/api/v1/generate";
                   log_chunks_generated := chunks request;
                   log_response_time_ms := elapsed_ms w;
                   log_status_code := 200 |}
                (add_call w (call_generate request))) as (w' & E & _).
    rewrite E. cbn [snd].
    destruct (make_GenerateResponse _ _ _ _ _); reflexivity.
  - destruct (make_GenerateResponse _ _ _ _ _); reflexivity.
Qed.

Lemma advance_add (G : Generator) (n m : nat) (g : gen_state G) :
  advance G (n + m) g =
  match advance G n g with
  | Ok g' => advance G m g'
  | Raise e => Raise e
  end.
Proof.
  revert g. induction n as [|n IH]; intros g; [reflexivity|].
  cbn [advance Nat.add]. destruct (gen_next G g) as [[c g']|e]; [apply IH | reflexivity].
Qed.

Lemma take_chunks_length (G : Generator) (n : nat) (g : gen_state G) (cs : list (list byte)) :
  take_chunks G n g = Ok cs -> List.length cs = n.
Proof.
  revert g cs. induction n as [|n IH]; intros g cs; cbn [take_chunks].
  - now intros [= <-].
  - destruct (gen_next G g) as [[c g']|e]; [|discriminate].
    destruct (take_chunks G n g') as [cs'|e] eqn:E; [|discriminate].
    intros [= <-]. cbn. f_equal. eauto.
Qed.


Lemma strings_of_hex (cs : list (list byte)) :
  strings_of (format_data hex cs) = Some (map Py.hex cs).
Proof.
  induction cs as [|c cs IH]; [reflexivity|].
  cbn in *. now rewrite IH.
Qed.

Lemma strings_of_binary (cs : list (list byte)) :
  strings_of (format_data binary cs) = Some (map Base64.b64encode cs).
Proof.
  induction cs as [|c cs IH]; [reflexivity|].
  cbn [format_data map strings_of] in *. now rewrite IH.
Qed.

Lemma post_generate_Ok (G : option Generator) (a : option string)
    (body : GenerateRequest) (w w' : World) (r : GenerateResponse) :
  post_generate G a body w = (Ok r, w') ->
  exists G0 cs,
    G = Some G0 /\
    valid_GenerateRequest body = true /\
    chunk_stream G0 body = Ok cs /\
    response_of body cs = Ok r.
Proof.
  unfold post_generate. intros H.
  apply bind_Ok in H as (p & w1 & _ & H).
  destruct (valid_GenerateRequest body); [|discriminate].
  destruct G as [G0|].
  - rewrite generate_spec in H. cbv zeta in H.
    exists G0. destruct (chunk_stream G0 body) as [cs|e]; [|discriminate].
    exists cs. repeat split.
    destruct (DATABASE_AVAILABLE w1);
      destruct (response_of body cs); cbn in H; congruence.
  - unfold generate in H. unfold_monad. discriminate.
Qed.




(* ================================================================== *)
(** * Skip and seed *)

Lemma chunk_stream_skip_seed (G : Generator) (s k c : Z) (f : Format) :
  (0 <= s)%Z -> (0 <= k)%Z ->
  chunk_stream G {| seed := s; chunks := c; format := f; skip := k |} =
  chunk_stream G {| seed := s + k; chunks := c; format := f; skip := 0 |}.
Proof.
  intros Hs Hk. unfold chunk_stream, range. cbn [seed skip chunks].
  change (Z.to_nat 0) with 0%nat. cbn [advance].
  replace (Z.to_nat (s + k)) with (Z.to_nat k + Z.to_nat s)%nat by lia.
  rewrite advance_add.
  destruct (advance G (Z.to_nat k) (gen_start G)); reflexivity.
Qed.

Lemma payload_response_of (b1 b2 : GenerateRequest) (cs : list (list byte)) :
  format b1 = format b2 -> chunks b1 = chunks b2 ->
  payload (generation_failed (response_of b1 cs)) =
  payload (generation_failed (response_of b2 cs)).
Proof.
  intros Hf Hc. unfold response_of, make_GenerateResponse. rewrite Hf, Hc.
  destruct (strings_of (format_data (format b2) cs)); reflexivity.
Qed.

(** C9: for non-negative [s] and [k], the request with seed [s] and skip [k]
    and the request with seed [s + k] and skip 0, with the same chunks and
    format, are answered alike: the same [data], [hash], [chunks_generated]
    and [verification_url], or the same failure. *)
Theorem C9_skip_seed_interchangeable
    (G : option Generator) (a : option string) (s k c : Z) (f : Format) (w : World) :
  (0 <= s)%Z -> (0 <= k)%Z ->
  payload (fst (post_generate G a
                  {| seed := s; chunks := c; format := f; skip := k |} w)) =
  payload (fst (post_generate G a
                  {| seed := s + k; chunks := c; format := f; skip := 0 |} w)).
Proof.
  intros Hs Hk. unfold post_generate, bind.
  destruct (verify_api_key a w) as [[p|e] w1]; [|reflexivity].
  assert (Hv : valid_GenerateRequest {| seed := s; chunks := c; format := f; skip := k |} =
               valid_GenerateRequest {| seed := s + k; chunks := c; format := f; skip := 0 |}).
  { unfold valid_GenerateRequest. cbn [seed chunks skip].
    replace (0 <=? s)%Z with true by (symmetry; apply Z.leb_le; lia).
    replace (0 <=? k)%Z with true by (symmetry; apply Z.leb_le; lia).
    replace (0 <=? s + k)%Z with true by (symmetry; apply Z.leb_le; lia).
    reflexivity. }
  rewrite <- Hv.
  destruct (valid_GenerateRequest _); [|reflexivity].
  destruct G as [G|].
  - rewrite !generate_spec. cbv zeta.
    rewrite <- (chunk_stream_skip_seed G s k c f Hs Hk).
    destruct (chunk_stream G _) as [cs|e]; [|reflexivity].
    destruct (DATABASE_AVAILABLE w1); cbn [fst];
      apply payload_response_of; reflexivity.
  - reflexivity.
Qed.

Lemma C9_witness :
  payload (fst (post_generate (Some Sample.counter) Sample.bearer
                  (Sample.request 2 3 hex 5) (Sample.production Sample.client))) =
  payload (fst (post_generate (Some Sample.counter) Sample.bearer
                  (Sample.request 7 3 hex 0) (Sample.production Sample.client))).
Proof.
  apply (C9_skip_seed_interchangeable (Some Sample.counter) Sample.bearer 2 5 3 hex
           (Sample.production Sample.client)); lia.
Defined.

(* ================================================================== *)
(** * Coin-flip statistics *)



Lemma flip_bounds (G : Generator) (n : nat) (g : gen_state G) (count h : Z) :
  flip G n g count = Ok h -> (count <= h <= count + Z.of_nat n)%Z.
Proof.
  revert g count. induction n as [|n IH]; intros g count; cbn [flip].
  - intros [= <-]. lia.
  - destruct (gen_next G g) as [[c g']|e]; [|discriminate].
    destruct c as [|b c']; [discriminate|].
    destruct (Z.eqb _ 0); intros H; apply IH in H; lia.
Qed.


Lemma get_coinflip_Ok (G : option Generator) (seed flips : Z) (r : CoinFlipStatsResponse) :
  get_coinflip G seed flips = Ok r ->
  (1 <= flips <= 1000000)%Z /\ coinflip_stats G seed flips = Ok r.
Proof.
  unfold get_coinflip.
  destruct (0 <=? seed)%Z; [|discriminate]. cbn [andb].
  destruct (Z.leb_spec 1 flips) as [H1|H1]; [|discriminate]. cbn [andb].
  destruct (Z.leb_spec flips 1000000) as [H2|H2]; [|discriminate].
  intros H. split; [lia | exact H].
Qed.




(* ================================================================== *)
(** * The calls of a request *)

Lemma admit_key_calls (key : string) (w : World) :
  exists l,
    calls (snd (admit_key key w)) = calls w ++ l /\
    DATABASE_AVAILABLE (snd (admit_key key w)) = DATABASE_AVAILABLE w /\
    admission_calls key l /\
    (DATABASE_AVAILABLE w = false -> l = []) /\
    (DATABASE_AVAILABLE w = true ->
     forall p, fst (admit_key key w) = Ok p ->
       l = [call_db_verify_api_key key;
            call_check_rate_limit (user_id p) (rate_limit p);
            call_get_monthly_usage (user_id p)]).
Proof.
  remember (admit_key key w) as out eqn:Eout.
  unfold admit_key in Eout. unfold bind at 1 in Eout. unfold get_world at 1 in Eout.
  destruct (DATABASE_AVAILABLE w) eqn:Hdb; cbn [negb] in Eout.
  - destruct (db_verify_api_key_total key w) as (o & w1 & E1 & C1 & D1).
    rewrite (bind_step _ _ _ _ _ E1) in Eout.
    destruct o as [user|].
    + destruct (check_rate_limit_total (user_id user) (rate_limit user) w1)
        as (b & w2 & E2 & C2 & D2).
      rewrite (bind_step _ _ _ _ _ E2) in Eout.
      destruct b; cbn [negb] in Eout.
      * destruct (get_monthly_usage_total (user_id user) w2) as (n & w3 & E3 & C3 & D3).
        rewrite (bind_step _ _ _ _ _ E3) in Eout.
        exists [call_db_verify_api_key key;
                call_check_rate_limit (user_id user) (rate_limit user);
                call_get_monthly_usage (user_id user)].
        assert (Hc : calls w3 = calls w ++
                  [call_db_verify_api_key key;
                   call_check_rate_limit (user_id user) (rate_limit user);
                   call_get_monthly_usage (user_id user)]).
        { rewrite C3, C2, C1. repeat rewrite <- app_assoc. reflexivity. }
        assert (Hd : DATABASE_AVAILABLE w3 = true) by congruence.
        destruct (chunks_limit user <=? n)%Z; unfold raise, ret in Eout;
          subst out; cbn [fst snd];
          (split; [exact Hc|]); (split; [exact Hd|]);
          (split; [constructor|]); (split; [discriminate|]); intros _ p Hp.
        -- discriminate.
        -- apply Ok_inj in Hp. now subst p.
      * exists [call_db_verify_api_key key;
                call_check_rate_limit (user_id user) (rate_limit user)].
        unfold raise in Eout. subst out. cbn [fst snd].
        split; [rewrite C2, C1; rewrite <- app_assoc; reflexivity|].
        split; [congruence|]. split; [constructor|].
        split; [discriminate|]. intros _ p Hp. discriminate.
    + exists [call_db_verify_api_key key].
      unfold raise in Eout. subst out. cbn [fst snd].
      split; [exact C1|]. split; [congruence|]. split; [constructor|].
      split; [discriminate|]. intros _ p Hp. discriminate.
  - exists []. rewrite app_nil_r.
    destruct (String.eqb key "gs_demo_key_12345"); unfold raise, ret in Eout;
      subst out; cbn [fst snd];
      (split; [reflexivity|]); (split; [exact Hdb|]); (split; [constructor|]);
      (split; [reflexivity|]); discriminate.
Qed.

Lemma verify_api_key_calls (a : option string) (w : World) :
  exists key l,
    calls (snd (verify_api_key a w)) = calls w ++ call_verify_api_key a :: l /\
    DATABASE_AVAILABLE (snd (verify_api_key a w)) = DATABASE_AVAILABLE w /\
    admission_calls key l /\
    (DATABASE_AVAILABLE w = false -> l = []) /\
    (DATABASE_AVAILABLE w = true ->
     forall p, fst (verify_api_key a w) = Ok p ->
       l = [call_db_verify_api_key key;
            call_check_rate_limit (user_id p) (rate_limit p);
            call_get_monthly_usage (user_id p)]).
Proof.
  destruct a as [a|].
  - destruct (Py.startswith a "Bearer ") eqn:Hp.
    + rewrite verify_api_key_bearer by exact Hp.
      destruct (admit_key_calls (api_key_of a)
                  (add_call w (call_verify_api_key (Some a))))
        as (l & Hc & Hd & Hl & Hdemo & Hprod).
      exists (api_key_of a), l. cbn [calls add_call DATABASE_AVAILABLE] in *.
      rewrite <- app_assoc in Hc. auto.
    + destruct (verify_api_key_malformed a w Hp) as (d & ->).
      exists EmptyString, []. cbn.
      repeat split; try constructor; try discriminate; intros; discriminate.
  - destruct (verify_api_key_missing w) as (d & ->).
    exists EmptyString, []. cbn.
    repeat split; try constructor; try discriminate; intros; discriminate.
Qed.

(** The handler logs its own call and at most one call of [log_usage]. *)
Lemma generate_calls (G : option Generator) (request : GenerateRequest)
    (req : ReqArg) (auth : AuthArg) (w : World) :
  exists l,
    calls (snd (generate G request req auth w)) = calls w ++ call_generate request :: l /\
    (l = [] \/ exists row, l = [call_log_usage row]).
Proof.
  destruct G as [G|].
  - rewrite generate_spec. cbv zeta.
    destruct (chunk_stream G request) as [cs|e].
    + destruct (DATABASE_AVAILABLE w).
      * destruct auth as [p|].
        -- destruct (log_usage_total (usage_row p request w)
                       (add_call w (call_generate request))) as (w' & E & C & _).
           rewrite E. cbn [snd]. exists [call_log_usage (usage_row p request w)].
           rewrite C. cbn [calls add_call]. rewrite <- app_assoc. eauto.
        -- exists []. cbn. auto.
      * exists []. cbn. auto.
    + exists []. cbn. auto.
  - exists []. unfold generate. unfold_monad. cbn. auto.
Qed.

Lemma generate_requests_app (l1 l2 : list Call) :
  generate_requests (l1 ++ l2) = generate_requests l1 ++ generate_requests l2.
Proof.
  induction l1 as [|c l1 IH]; [reflexivity|].
  destruct c; cbn; now rewrite IH.
Qed.

Lemma count_app (p : Call -> bool) (l1 l2 : list Call) :
  count p (l1 ++ l2) = (count p l1 + count p l2)%nat.
Proof. unfold count. now rewrite filter_app, length_app. Qed.

Lemma count_none (p : Call -> bool) (l : list Call) :
  Forall (fun c => is_admission c = false) l ->
  (forall c, p c = true -> is_admission c = true) ->
  count p l = 0%nat.
Proof.
  intros Hl Hp. unfold count. induction Hl as [|c l Hc Hl IH]; [reflexivity|].
  cbn [filter]. destruct (p c) eqn:E; [|exact IH].
  apply Hp in E. congruence.
Qed.

Lemma batch_loop_calls (G : option Generator) (auth : Principal) (c : Z)
    (ss : list Z) (w : World) :
  exists l,
    calls (snd (for_each
                  (fun seed =>
                     bind (lift (make_GenerateRequest seed c hex))
                          (fun gen_request =>
                             generate G gen_request (req_dict auth) auth_Depends))
                  ss w)) = calls w ++ l /\
    Forall (fun x => is_admission x = false) l /\
    Forall (fun r => format r = hex /\ skip r = 0%Z /\ chunks r = c /\ In (seed r) ss)
           (generate_requests l).
Proof.
  revert w. induction ss as [|s ss IH]; intros w.
  - exists []. cbn. rewrite app_nil_r. auto.
  - cbn [for_each]. unfold bind at 1. unfold bind at 1. unfold lift at 1.
    unfold make_GenerateRequest.
    destruct (valid_GenerateRequest _).
    + destruct (generate_calls G {| seed := s; chunks := c; format := hex; skip := 0 |}
                  (req_dict auth) auth_Depends w) as (l1 & C1 & Hl1).
      destruct (generate G _ (req_dict auth) auth_Depends w) as [[r|e] w1] eqn:E;
        cbn [snd] in C1.
      * destruct (IH w1) as (l2 & C2 & Hadm & Hreq).
        unfold bind at 1.
        destruct (for_each _ ss w1) as [[rs|e] w2]; cbn [snd ret] in *;
          exists ((call_generate {| seed := s; chunks := c; format := hex; skip := 0 |} :: l1) ++ l2);
          (split; [rewrite C2, C1; now rewrite <- app_assoc|]);
          (split;
           [apply Forall_app; split; [|exact Hadm];
            constructor; [reflexivity|];
            destruct Hl1 as [->|[row ->]]; repeat constructor
           |rewrite generate_requests_app; apply Forall_app; split;
            [cbn [generate_requests app];
             destruct Hl1 as [->|[row ->]]; cbn; repeat constructor; cbn; auto
            |eapply Forall_impl; [|exact Hreq]; cbn; intuition]]).
      * exists (call_generate {| seed := s; chunks := c; format := hex; skip := 0 |} :: l1).
        split; [exact C1|].
        destruct Hl1 as [->|[row ->]]; cbn; repeat constructor; cbn; auto.
    + exists []. cbn. rewrite app_nil_r. auto.
Qed.

Lemma admission_counts (a : option string) (key : string) (l : list Call) :
  admission_calls key l ->
  count is_verify_api_key (call_verify_api_key a :: l) = 1%nat /\
  (count is_db_verify_api_key (call_verify_api_key a :: l) <= 1)%nat /\
  (count is_check_rate_limit (call_verify_api_key a :: l) <= 1)%nat /\
  (count is_get_monthly_usage (call_verify_api_key a :: l) <= 1)%nat /\
  generate_requests (call_verify_api_key a :: l) = [].
Proof. intros H. destruct H; cbn; repeat split; lia. Qed.

Lemma post_batch_calls (G : option Generator) (a : option string)
    (body : BatchRequest) (w : World) :
  exists l2,
    calls (snd (post_batch G a body w)) = calls (snd (verify_api_key a w)) ++ l2 /\
    Forall (fun x => is_admission x = false) l2 /\
    Forall (contained body) (generate_requests l2).
Proof.
  unfold post_batch, bind.
  destruct (verify_api_key a w) as [[p|e] w1]; cbn [snd].
  - destruct (valid_BatchRequest body).
    + unfold batch_generate. destruct G as [G0|].
      * destruct (batch_loop_calls (Some G0) p (chunks_per_seed body) (seeds body) w1)
          as (l2 & C & Hadm & Hreq).
        exists l2. repeat split; assumption.
      * exists []. cbn. rewrite app_nil_r. auto.
    + exists []. cbn. rewrite app_nil_r. auto.
  - exists []. rewrite app_nil_r. auto.
Qed.

(** The claim C4 as stated fails: a batch of two seeds runs each admission
    check once, in production, where the store is consulted, as in demo mode,
    where both contained calls are served. *)
Lemma C4_two_seeds_one_check :
  let body := {| seeds := [1%Z; 2%Z]; chunks_per_seed := 1 |} in
  let production :=
    calls (snd (post_batch (Some Sample.counter) Sample.bearer body
                  (Sample.production Sample.client))) in
  let demo :=
    post_batch (Some Sample.counter) (Some "Bearer gs_demo_key_12345") body Sample.demo in
  List.length (seeds body) = 2%nat /\
  count is_verify_api_key production = 1%nat /\
  count is_db_verify_api_key production = 1%nat /\
  count is_check_rate_limit production = 1%nat /\
  count is_get_monthly_usage production = 1%nat /\
  status (fst demo) = 200%Z /\
  List.length (generate_requests (calls (snd demo))) = 2%nat /\
  count is_verify_api_key (calls (snd demo)) = 1%nat.
Proof. vm_compute. repeat split. Qed.

(** C4, amended: a POST /api/v1/batch request runs admission control once,
    whatever the number of seeds: the dependency of the batch endpoint is
    called once, key resolution, the rate-limit check and the quota check at
    most once, and exactly once each for a request admitted in production;
    the contained calls of the generation handler run no admission check,
    and each is made with format "hex", skip 0, the chunks_per_seed of the
    batch and one of its seeds. *)
Theorem C4_batch_checks_once
    (G : option Generator) (a : option string) (body : BatchRequest) (w : World) :
  exists l,
    calls (snd (post_batch G a body w)) = calls w ++ l /\
    count is_verify_api_key l = 1%nat /\
    (count is_db_verify_api_key l <= 1)%nat /\
    (count is_check_rate_limit l <= 1)%nat /\
    (count is_get_monthly_usage l <= 1)%nat /\
    (DATABASE_AVAILABLE w = true ->
     (exists p, fst (verify_api_key a w) = Ok p) ->
     count is_db_verify_api_key l = 1%nat /\
     count is_check_rate_limit l = 1%nat /\
     count is_get_monthly_usage l = 1%nat) /\
    Forall (contained body) (generate_requests l).
Proof.
  destruct (post_batch_calls G a body w) as (l2 & C2 & Hadm2 & Hreq2).
  destruct (verify_api_key_calls a w) as (key & l1 & C1 & _ & Hadm1 & _ & Hprod).
  destruct (admission_counts a key l1 Hadm1) as (N1 & N2 & N3 & N4 & N5).
  exists ((call_verify_api_key a :: l1) ++ l2).
  split; [rewrite C2, C1; now rewrite <- app_assoc|].
  assert (Z1 : count is_verify_api_key l2 = 0%nat).
  { apply count_none; [exact Hadm2|]. intros c Hc. unfold is_admission. now rewrite Hc. }
  assert (Z2 : count is_db_verify_api_key l2 = 0%nat).
  { apply count_none; [exact Hadm2|]. intros c Hc. unfold is_admission.
    rewrite Hc. now rewrite orb_true_r. }
  assert (Z3 : count is_check_rate_limit l2 = 0%nat).
  { apply count_none; [exact Hadm2|]. intros c Hc. unfold is_admission.
    rewrite Hc. now rewrite !orb_true_r. }
  assert (Z4 : count is_get_monthly_usage l2 = 0%nat).
  { apply count_none; [exact Hadm2|]. intros c Hc. unfold is_admission.
    rewrite Hc. now rewrite !orb_true_r. }
  rewrite !count_app, Z1, Z2, Z3, Z4, !Nat.add_0_r.
  split; [exact N1|]. split; [exact N2|]. split; [exact N3|]. split; [exact N4|].
  split.
  - intros Hdb [p Hp]. rewrite (Hprod Hdb p Hp). cbn. auto.
  - rewrite generate_requests_app, N5. exact Hreq2.
Qed.

Lemma C4_witness :
  let body := {| seeds := [1%Z; 2%Z]; chunks_per_seed := 1 |} in
  exists l,
    calls (snd (post_batch (Some Sample.counter) Sample.bearer body
                  (Sample.production Sample.client))) = l /\
    count is_verify_api_key l = 1%nat /\
    count is_db_verify_api_key l = 1%nat /\
    count is_check_rate_limit l = 1%nat /\
    count is_get_monthly_usage l = 1%nat.
Proof.
  intro body.
  destruct (C4_batch_checks_once (Some Sample.counter) Sample.bearer body
              (Sample.production Sample.client))
    as (l & C & N1 & _ & _ & _ & Hprod & _).
  exists l. split; [exact C|]. split; [exact N1|].
  apply Hprod; [reflexivity|].
  eexists. vm_compute. reflexivity.
Defined.

(* ================================================================== *)
(** * The usage log *)

Lemma db_verify_api_key_logged (key : string) (w : World) :
  logged (snd (db_verify_api_key key w)) = logged w.
Proof.
  unfold db_verify_api_key, select_api_keys, select_users, select_subscriptions,
    update_last_used_at, logged.
  unfold_monad. destruct w as [avail [c|] log now ms]; cbn; [|reflexivity].
  destruct (failing c SelectApiKeys); [reflexivity|].
  destruct (filter _ (api_keys c)) as [|k ks]; cbn; [reflexivity|].
  destruct (failing c SelectUsers); [reflexivity|].
  destruct (filter _ (users c)) as [|u us]; cbn; [reflexivity|].
  destruct (failing c SelectSubscriptions); [reflexivity|].
  destruct (filter _ (subscriptions c)) as [|s ss]; cbn; [reflexivity|].
  destruct (failing c UpdateApiKeys); cbn; reflexivity.
Qed.

Lemma check_rate_limit_logged (uid : string) (limit : Z) (w : World) :
  logged (snd (check_rate_limit uid limit w)) = logged w.
Proof.
  unfold check_rate_limit, logged. unfold_monad.
  destruct w as [avail [c|] log now ms]; cbn; [|reflexivity].
  destruct (failing c RpcCheckRateLimit); cbn; reflexivity.
Qed.

Lemma get_monthly_usage_logged (uid : string) (w : World) :
  logged (snd (get_monthly_usage uid w)) = logged w.
Proof.
  unfold get_monthly_usage, logged. unfold_monad.
  destruct w as [avail [c|] log now ms]; cbn; [|reflexivity].
  destruct (failing c RpcGetMonthlyUsage); cbn; reflexivity.
Qed.

(** [log_usage] appends its row, or nothing when the store does not take it. *)
Lemma log_usage_logged (row : UsageLogRow) (w : World) :
  logged (snd (log_usage row w)) = logged w \/
  logged (snd (log_usage row w)) = logged w ++ [row].
Proof.
  unfold log_usage, insert_usage_log, logged. unfold_monad.
  destruct w as [avail [c|] log now ms]; cbn; [|auto].
  destruct (failing c InsertUsageLogs); cbn; auto.
Qed.

Lemma admit_key_logged (key : string) (w : World) :
  logged (snd (admit_key key w)) = logged w.
Proof.
  remember (admit_key key w) as out eqn:Eout.
  unfold admit_key in Eout. unfold bind at 1 in Eout. unfold get_world at 1 in Eout.
  destruct (negb (DATABASE_AVAILABLE w)).
  - destruct (String.eqb key "gs_demo_key_12345"); subst out; reflexivity.
  - pose proof (db_verify_api_key_logged key w) as L1.
    destruct (db_verify_api_key_total key w) as (o & w1 & E1 & _).
    rewrite E1 in L1. cbn [snd] in L1.
    rewrite (bind_step _ _ _ _ _ E1) in Eout.
    destruct o as [user|]; [|subst out; exact L1].
    pose proof (check_rate_limit_logged (user_id user) (rate_limit user) w1) as L2.
    destruct (check_rate_limit_total (user_id user) (rate_limit user) w1)
      as (b & w2 & E2 & _).
    rewrite E2 in L2. cbn [snd] in L2.
    rewrite (bind_step _ _ _ _ _ E2) in Eout.
    destruct b; cbn [negb] in Eout; [|subst out; cbn [snd raise]; congruence].
    pose proof (get_monthly_usage_logged (user_id user) w2) as L3.
    destruct (get_monthly_usage_total (user_id user) w2) as (n & w3 & E3 & _).
    rewrite E3 in L3. cbn [snd] in L3.
    rewrite (bind_step _ _ _ _ _ E3) in Eout.
    destruct (chunks_limit user <=? n)%Z; subst out; cbn [snd raise ret]; congruence.
Qed.

(** Admission control writes no usage entry. *)
Lemma verify_api_key_logged (a : option string) (w : World) :
  logged (snd (verify_api_key a w)) = logged w.
Proof.
  destruct a as [a|].
  - destruct (Py.startswith a "Bearer ") eqn:Hp.
    + rewrite verify_api_key_bearer by exact Hp. now rewrite admit_key_logged.
    + destruct (verify_api_key_malformed a w Hp) as (d & ->). reflexivity.
  - destruct (verify_api_key_missing w) as (d & ->). reflexivity.
Qed.

(** What POST /api/v1/generate does to the usage log: nothing when the
    request is refused by admission control or by validation, or when the
    generator or the library fails; otherwise at most one entry, with status
    200 and the requested chunk count, written before the response is built.
    For the hex and binary formats the response is then returned. *)
Lemma post_generate_logged (G : option Generator) (a : option string)
    (body : GenerateRequest) (w : World) :
  let out := post_generate G a body w in
  logged (snd out) = logged w \/
  exists row,
    logged (snd out) = logged w ++ [row] /\
    log_status_code row = 200%Z /\
    log_chunks_generated row = chunks body /\
    log_endpoint row = "/api/v1/generate"%string /\
    (exists p, fst (verify_api_key a w) = Ok p) /\
    valid_GenerateRequest body = true /\
    (format body <> json -> exists r, fst out = Ok r).
Proof.
  cbv zeta. unfold post_generate, bind.
  pose proof (verify_api_key_logged a w) as L.
  destruct (verify_api_key a w) as [[p|e] w1]; cbn [snd fst] in *; [|auto].
  destruct (valid_GenerateRequest body) eqn:Hv; [|cbn; auto].
  destruct G as [G|]; [|unfold generate; unfold_monad; cbn; auto].
  rewrite generate_spec. cbv zeta.
  destruct (chunk_stream G body) as [cs|e]; [|cbn; auto].
  destruct (DATABASE_AVAILABLE w1); [|cbn; auto].
  cbn [fst snd].
  destruct (log_usage_logged (usage_row p body w1) (add_call w1 (call_generate body)))
    as [Hsame|Hnew].
  - left. rewrite Hsame. exact L.
  - right. exists (usage_row p body w1).
    split; [rewrite Hnew; cbn; now rewrite <- L|].
    repeat split; eauto.
    intros Hfmt. unfold response_of, make_GenerateResponse.
    destruct (format body); [|congruence|].
    + rewrite strings_of_hex. cbn. eauto.
    + rewrite strings_of_binary. cbn. eauto.
Qed.

(** C10: a usage entry should be written only for a request that succeeds.
    For a json request in production the code writes the entry, with status
    200 and the requested chunk count, and then fails to build the response:
    the request ends with 500 and the entry stays in the log. *)
Theorem C10_json_logged_then_failed :
  let out := post_generate (Some Sample.counter) Sample.bearer
               (Sample.request 0 2 json 0) (Sample.production Sample.client) in
  status (fst out) = 500%Z /\
  logged (Sample.production Sample.client) = [] /\
  logged (snd out) =
    [ {| log_user_id := "u1";
         log_api_key_id := "k1";
         log_endpoint := "/api/v1/generate";
         log_chunks_generated := 2;
         log_response_time_ms := 3;
         log_status_code := 200 |} ].
Proof. vm_compute. repeat split. Qed.

(* ================================================================== *)
(** * The response of the generation handler *)

Lemma strings_of_length (items : list DataItem) (l : list string) :
  strings_of items = Some l -> List.length l = List.length items.
Proof.
  revert l. induction items as [|[s|ints] items IH]; intros l; cbn [strings_of].
  - now intros [= <-].
  - destruct (strings_of items) as [l'|]; [|discriminate].
    intros [= <-]. cbn. f_equal. now apply IH.
  - discriminate.
Qed.

Lemma format_data_length (f : Format) (cs : list (list byte)) :
  List.length (format_data f cs) = List.length cs.
Proof. destruct f; cbn; apply length_map. Qed.

Lemma chunk_stream_length (G : Generator) (body : GenerateRequest) (cs : list (list byte)) :
  chunk_stream G body = Ok cs -> List.length cs = Z.to_nat (chunks body).
Proof.
  unfold chunk_stream.
  destruct (advance G (range (skip body)) (gen_start G)) as [g1|]; [|discriminate].
  destruct (advance G (range (seed body)) g1) as [g2|]; [|discriminate].
  apply take_chunks_length.
Qed.

Lemma take_length (n : nat) (s : string) :
  (n <= String.length s)%nat -> String.length (Py.take n s) = n.
Proof.
  revert s. induction n as [|n IH]; intros s Hn; [reflexivity|].
  destruct s as [|c s]; cbn in *; [lia|]. f_equal. apply IH. lia.
Qed.

Lemma response_of_Ok (body : GenerateRequest) (cs : list (list byte)) (r : GenerateResponse) :
  response_of body cs = Ok r ->
  List.length (data r) = List.length cs /\
  hash r = SHA256.hexdigest (List.concat cs) /\
  chunks_generated r = chunks body /\
  response_seed r = seed body /\
  verification_url r = ("https://goldenseed.io/verify/" ++ Py.take 16 (hash r))%string.
Proof.
  unfold response_of, make_GenerateResponse.
  destruct (strings_of (format_data (format body) cs)) as [l|] eqn:E; [|discriminate].
  intros H. apply Ok_inj in H. subst r. cbn [data hash chunks_generated response_seed verification_url].
  apply strings_of_length in E. rewrite format_data_length in E.
  repeat split. exact E.
Qed.

(** Every response of POST /api/v1/generate carries one element of [data]
    per requested chunk, echoes the chunk count and the seed, has a hash of
    64 lowercase hex characters, and a verification URL that ends with the
    first 16 characters of that hash. *)
Theorem generate_response_shape
    (G : option Generator) (a : option string) (body : GenerateRequest)
    (w w' : World) (r : GenerateResponse) :
  post_generate G a body w = (Ok r, w') ->
  (1 <= chunks body <= 10000)%Z /\
  List.length (data r) = Z.to_nat (chunks body) /\
  chunks_generated r = chunks body /\
  response_seed r = seed body /\
  String.length (hash r) = 64%nat /\
  Py.all_chars Py.is_lower_hex (hash r) = true /\
  verification_url r = ("https://goldenseed.io/verify/" ++ Py.take 16 (hash r))%string /\
  String.length (Py.take 16 (hash r)) = 16%nat.
Proof.
  intros H. apply post_generate_Ok in H as (G0 & cs & _ & Hv & Hcs & Hr).
  apply response_of_Ok in Hr as (Hd & Hh & Hc & Hs & Hu).
  apply chunk_stream_length in Hcs.
  assert (Hlen : String.length (hash r) = 64%nat)
    by (rewrite Hh; apply hexdigest_length).
  split.
  { unfold valid_GenerateRequest in Hv.
    apply andb_true_iff in Hv as [Hv _]. apply andb_true_iff in Hv as [Hv H2].
    apply andb_true_iff in Hv as [_ H1]. apply Z.leb_le in H1, H2. lia. }
  split; [congruence|]. split; [exact Hc|]. split; [exact Hs|].
  split; [exact Hlen|].
  split; [rewrite Hh; apply hex_lower|].
  split; [exact Hu|].
  apply take_length. rewrite Hlen. lia.
Qed.

Lemma generate_response_shape_witness :
  exists r w',
    post_generate (Some Sample.counter) Sample.bearer (Sample.request 2 3 binary 1)
      (Sample.production Sample.client) = (Ok r, w') /\
    List.length (data r) = 3%nat /\
    verification_url r = ("https://goldenseed.io/verify/" ++ Py.take 16 (hash r))%string.
Proof.
  pose (out := post_generate (Some Sample.counter) Sample.bearer
                 (Sample.request 2 3 binary 1) (Sample.production Sample.client)).
  assert (E : exists r, out = (Ok r, snd out)).
  { vm_compute. eexists. reflexivity. }
  destruct E as [r E]. exists r, (snd out). split; [exact E|].
  destruct (generate_response_shape (Some Sample.counter) Sample.bearer
              (Sample.request 2 3 binary 1) (Sample.production Sample.client)
              (snd out) r E) as (_ & Hd & _ & _ & _ & _ & Hu & _).
  split; [exact Hd | exact Hu].
Defined.

(** The verify endpoint reports a prefix valid exactly when it has at least
    16 characters, so it accepts the prefix embedded in the verification URL
    of every generate response. *)
Theorem verify_accepts_generated_prefix
    (G : option Generator) (a : option string) (body : GenerateRequest)
    (w w' : World) (r : GenerateResponse) :
  post_generate G a body w = (Ok r, w') ->
  (forall p : string, valid (verify p) = true <-> (16 <= String.length p)%nat) /\
  exists p : string,
    verification_url r = ("https://goldenseed.io/verify/" ++ p)%string /\
    valid (verify p) = true.
Proof.
  intros H.
  assert (Hverify : forall p : string,
             valid (verify p) = true <-> (16 <= String.length p)%nat).
  { intros p. unfold verify.
    destruct (Nat.ltb_spec (String.length p) 16); cbn [valid]; split;
      intros; try lia; try discriminate; reflexivity. }
  split; [exact Hverify|].
  apply post_generate_Ok in H as (G0 & cs & _ & _ & _ & Hr).
  apply response_of_Ok in Hr as (_ & Hh & _ & _ & Hu).
  exists (Py.take 16 (hash r)). split; [exact Hu|].
  apply Hverify. rewrite take_length; [lia|].
  rewrite Hh, hexdigest_length. lia.
Qed.

Lemma verify_accepts_generated_prefix_witness :
  valid (verify "374708fff7719dd5") = true /\ valid (verify "374708fff7719dd") = false.
Proof.
  pose (out := post_generate (Some Sample.counter) (Some "Bearer gs_demo_key_12345")
                 (Sample.request 0 1 hex 0) Sample.demo).
  assert (E : exists r, out = (Ok r, snd out) /\
                        verification_url r = "https://goldenseed.io/verify/374708fff7719dd5"%string).
  { vm_compute. eexists. split; reflexivity. }
  destruct E as (r & E & Hu).
  destruct (verify_accepts_generated_prefix (Some Sample.counter)
              (Some "Bearer gs_demo_key_12345"%string) (Sample.request 0 1 hex 0)
              Sample.demo (snd out) r E) as (Hiff & _).
  split.
  - apply Hiff. cbn. lia.
  - destruct (valid (verify "374708fff7719dd")) eqn:Hv; [|reflexivity].
    apply Hiff in Hv. cbn in Hv. lia.
Defined.

Lemma post_generate_admitted (G : option Generator) (a : option string)
    (body : GenerateRequest) (w w1 : World) (p : Principal) :
  verify_api_key a w = (Ok p, w1) ->
  post_generate G a body w =
  if valid_GenerateRequest body
  then generate G body req_Request (auth_dict p) w1
  else (Raise (RequestValidationError "body"), w1).
Proof.
  intros E. unfold post_generate. rewrite (bind_step _ _ _ _ _ E).
  destruct (valid_GenerateRequest body); reflexivity.
Qed.

Lemma generate_with_dict (G : option Generator) (body : GenerateRequest)
    (req : ReqArg) (p : Principal) (w : World) :
  fst (generate G body req (auth_dict p) w) = generate_answer G body.
Proof.
  unfold generate_answer. destruct G as [G0|].
  - rewrite generate_spec. cbv zeta.
    destruct (chunk_stream G0 body) as [cs|e]; [|reflexivity].
    destruct (DATABASE_AVAILABLE w); reflexivity.
  - reflexivity.
Qed.

(** The answer to an admitted POST /api/v1/generate request does not depend
    on who asks, on the content of the store, on its failures or on the
    clock: two admitted requests with the same body are answered alike,
    response or failure. *)
Theorem generate_answer_independent_of_store
    (G : option Generator) (body : GenerateRequest)
    (a1 a2 : option string) (w1 w2 : World) (p1 p2 : Principal) :
  fst (verify_api_key a1 w1) = Ok p1 ->
  fst (verify_api_key a2 w2) = Ok p2 ->
  fst (post_generate G a1 body w1) = fst (post_generate G a2 body w2).
Proof.
  intros H1 H2.
  destruct (verify_api_key a1 w1) as [r1 w1'] eqn:E1.
  destruct (verify_api_key a2 w2) as [r2 w2'] eqn:E2.
  cbn [fst] in H1, H2. subst r1 r2.
  rewrite (post_generate_admitted _ _ _ _ _ _ E1).
  rewrite (post_generate_admitted _ _ _ _ _ _ E2).
  destruct (valid_GenerateRequest body); [|reflexivity].
  now rewrite !generate_with_dict.
Qed.

Lemma generate_answer_independent_of_store_witness :
  fst (post_generate (Some Sample.counter) Sample.bearer (Sample.request 4 2 hex 0)
         (Sample.production
            (Sample.with_failing Sample.client
               (fun op => match op with
                          | InsertUsageLogs => Some "timeout"%string
                          | _ => None
                          end)))) =
  fst (post_generate (Some Sample.counter) (Some "Bearer gs_demo_key_12345"%string)
         (Sample.request 4 2 hex 0) Sample.demo).
Proof.
  apply (generate_answer_independent_of_store (Some Sample.counter)
           (Sample.request 4 2 hex 0) Sample.bearer
           (Some "Bearer gs_demo_key_12345"%string) _ Sample.demo
           {| user_id := "u1"; api_key_id := "k1"; email := "u1@example.org";
              tier := "free"; chunks_limit := 10000; rate_limit := 100 |}
           demo_principal); vm_compute; reflexivity.
Defined.

(** A json request is never answered with a response: the handler builds
    lists of byte values where the response model takes strings, so the
    request ends with a failure in every world. *)
Theorem json_request_never_served
    (G : option Generator) (a : option string) (body : GenerateRequest) (w : World) :
  format body = json ->
  status (fst (post_generate G a body w)) <> 200%Z.
Proof.
  intros Hf.
  destruct (post_generate G a body w) as [[r|e] w'] eqn:E.
  - exfalso. apply post_generate_Ok in E as (G0 & cs & _ & Hv & Hcs & Hr).
    apply chunk_stream_length in Hcs.
    unfold valid_GenerateRequest in Hv.
    apply andb_true_iff in Hv as [Hv _]. apply andb_true_iff in Hv as [Hv _].
    apply andb_true_iff in Hv as [_ H1]. apply Z.leb_le in H1.
    destruct cs as [|c cs]; [cbn in Hcs; lia|].
    unfold response_of, make_GenerateResponse in Hr. rewrite Hf in Hr.
    cbn in Hr. discriminate.
  - cbn [fst]. destruct e as [s d|f|m]; cbn [status]; try discriminate.
    intros Hs. subst s.
    unfold post_generate, bind in E.
    destruct (verify_api_key a w) as [[p|e1] w1] eqn:Ea.
    + destruct (valid_GenerateRequest body); [|discriminate].
      pose proof (generate_with_dict G body req_Request p w1) as Hg.
      rewrite E in Hg. cbn [fst] in Hg. unfold generate_answer in Hg.
      destruct G as [G0|]; [|discriminate].
      destruct (chunk_stream G0 body) as [cs|e0]; [|discriminate].
      destruct (response_of body cs); discriminate.
    + injection E as -> _.
      destruct a as [a|].
      * destruct (Py.startswith a "Bearer ") eqn:Hp.
        -- rewrite verify_api_key_bearer in Ea by exact Hp.
           unfold admit_key in Ea. unfold bind at 1 in Ea. unfold get_world at 1 in Ea.
           destruct (negb (DATABASE_AVAILABLE _)).
           ++ destruct (String.eqb _ _); discriminate.
           ++ destruct (db_verify_api_key_total (api_key_of a)
                          (add_call w (call_verify_api_key (Some a)))) as (o & w2 & E2 & _).
              rewrite (bind_step _ _ _ _ _ E2) in Ea.
              destruct o as [user|]; [|discriminate].
              destruct (check_rate_limit_total (user_id user) (rate_limit user) w2)
                as (b & w3 & E3 & _).
              rewrite (bind_step _ _ _ _ _ E3) in Ea.
              destruct b; cbn [negb] in Ea; [|discriminate].
              destruct (get_monthly_usage_total (user_id user) w3) as (n & w4 & E4 & _).
              rewrite (bind_step _ _ _ _ _ E4) in Ea.
              destruct (chunks_limit user <=? n)%Z; discriminate.
        -- destruct (verify_api_key_malformed a w Hp) as (d0 & E0).
           rewrite E0 in Ea. discriminate.
      * destruct (verify_api_key_missing w) as (d0 & E0).
        rewrite E0 in Ea. discriminate.
Qed.

Lemma json_request_never_served_witness :
  status (fst (post_generate (Some Sample.counter) (Some "Bearer gs_demo_key_12345"%string)
                 (Sample.request 0 1 json 0) Sample.demo)) <> 200%Z.
Proof.
  apply (json_request_never_served (Some Sample.counter)
           (Some "Bearer gs_demo_key_12345"%string) (Sample.request 0 1 json 0)
           Sample.demo).
  reflexivity.
Defined.

Lemma log_usage_store (row : UsageLogRow) (w : World) (c : Client) :
  supabase w = Some c ->
  logged (snd (log_usage row w)) =
  match failing c InsertUsageLogs with
  | Some _ => usage_logs c
  | None => usage_logs c ++ [row]
  end.
Proof.
  unfold log_usage, insert_usage_log, logged. unfold_monad.
  destruct w as [avail sb log now ms]. cbn. intros ->. cbn.
  destruct (failing c InsertUsageLogs); reflexivity.
Qed.

(** When the generator library is missing, or the generator raises before
    the requested chunks are drawn, an admitted request ends with status 500
    and a detail that names the failure, and no usage entry is written. *)
Theorem generation_failure_not_logged
    (G : option Generator) (a : option string) (body : GenerateRequest)
    (w w1 : World) (p : Principal) :
  verify_api_key a w = (Ok p, w1) ->
  valid_GenerateRequest body = true ->
  match G with
  | None =>
      fst (post_generate G a body w) =
        Raise (HTTPException 500 "GoldenSeed library not available") /\
      logged (snd (post_generate G a body w)) = logged w
  | Some G0 =>
      forall e, chunk_stream G0 body = Raise e ->
        fst (post_generate G a body w) =
          Raise (HTTPException 500 ("Generation failed: " ++ str_exn e)) /\
        logged (snd (post_generate G a body w)) = logged w
  end.
Proof.
  intros Ea Hv.
  pose proof (verify_api_key_logged a w) as L. rewrite Ea in L. cbn [snd] in L.
  rewrite (post_generate_admitted _ _ _ _ _ _ Ea), Hv.
  destruct G as [G0|].
  - intros e He. rewrite generate_spec. cbv zeta. rewrite He. cbn. split; [reflexivity | exact L].
  - unfold generate. unfold_monad. cbn. split; [reflexivity | exact L].
Qed.

Lemma generation_failure_not_logged_witness :
  let out := post_generate (Some (Sample.exhausted_after 3)) Sample.bearer
               (Sample.request 2 2 hex 0) (Sample.production Sample.client) in
  fst out = Raise (HTTPException 500 "Generation failed: ") /\
  logged (snd out) = [].
Proof.
  exact (generation_failure_not_logged (Some (Sample.exhausted_after 3)) Sample.bearer
           (Sample.request 2 2 hex 0) (Sample.production Sample.client)
           (snd (verify_api_key Sample.bearer (Sample.production Sample.client)))
           Sample.sample_principal
           ltac:(vm_compute; reflexivity) ltac:(vm_compute; reflexivity)
           (Exception "") ltac:(vm_compute; reflexivity)).
Defined.

(** A request that is admitted in production and whose chunks are drawn
    writes exactly one usage entry, with the principal's ids, the requested
    chunk count and status 200, when the store takes the insert, and none
    when the store refuses it; the answer to the request is the same in both
    cases. *)
Theorem served_request_metered_once
    (G0 : Generator) (a : option string) (body : GenerateRequest)
    (w w1 : World) (p : Principal) (c1 : Client) (cs : list (list byte)) :
  verify_api_key a w = (Ok p, w1) ->
  valid_GenerateRequest body = true ->
  DATABASE_AVAILABLE w1 = true ->
  supabase w1 = Some c1 ->
  chunk_stream G0 body = Ok cs ->
  fst (post_generate (Some G0) a body w) = generation_failed (response_of body cs) /\
  logged (snd (post_generate (Some G0) a body w)) =
    match failing c1 InsertUsageLogs with
    | Some _ => logged w
    | None =>
        logged w ++
        [ {| log_user_id := user_id p;
             log_api_key_id := api_key_id p;
             log_endpoint := "/api/v1/generate";
             log_chunks_generated := chunks body;
             log_response_time_ms := elapsed_ms w1;
             log_status_code := 200 |} ]
    end.
Proof.
  intros Ea Hv Hdb Hc Hcs.
  pose proof (verify_api_key_logged a w) as L. rewrite Ea in L. cbn [snd] in L.
  rewrite (post_generate_admitted _ _ _ _ _ _ Ea), Hv.
  rewrite generate_spec. cbv zeta. rewrite Hcs, Hdb. cbn [fst snd].
  split; [reflexivity|].
  rewrite (log_usage_store _ _ c1) by exact Hc.
  assert (L1 : logged w1 = usage_logs c1) by (unfold logged; now rewrite Hc).
  rewrite <- L1, L.
  destruct (failing c1 InsertUsageLogs); reflexivity.
Qed.

Lemma served_request_metered_once_witness :
  let served := post_generate (Some Sample.counter) Sample.bearer
                  (Sample.request 0 2 hex 0) (Sample.production Sample.client) in
  let dropped := post_generate (Some Sample.counter) Sample.bearer
                   (Sample.request 0 2 hex 0)
                   (Sample.production (Sample.with_failing Sample.client Sample.insert_fails)) in
  logged (snd served) =
    [ {| log_user_id := "u1"; log_api_key_id := "k1";
         log_endpoint := "/api/v1/generate"; log_chunks_generated := 2;
         log_response_time_ms := 3; log_status_code := 200 |} ] /\
  logged (snd dropped) = [].
Proof.
  split.
  - exact (proj2 (served_request_metered_once Sample.counter Sample.bearer
             (Sample.request 0 2 hex 0) (Sample.production Sample.client)
             (snd (verify_api_key Sample.bearer (Sample.production Sample.client)))
             Sample.sample_principal
             (set_api_keys Sample.client
                (map (touch "2024-01-01T00:00:00" "k1") (api_keys Sample.client)))
             [repeat x00 16; repeat x01 16]
             ltac:(vm_compute; reflexivity) ltac:(vm_compute; reflexivity)
             ltac:(vm_compute; reflexivity) ltac:(vm_compute; reflexivity)
             ltac:(vm_compute; reflexivity))).
  - exact (proj2 (served_request_metered_once Sample.counter Sample.bearer
             (Sample.request 0 2 hex 0)
             (Sample.production (Sample.with_failing Sample.client Sample.insert_fails))
             (snd (verify_api_key Sample.bearer
                     (Sample.production (Sample.with_failing Sample.client Sample.insert_fails))))
             Sample.sample_principal
             (set_api_keys (Sample.with_failing Sample.client Sample.insert_fails)
                (map (touch "2024-01-01T00:00:00" "k1") (api_keys Sample.client)))
             [repeat x00 16; repeat x01 16]
             ltac:(vm_compute; reflexivity) ltac:(vm_compute; reflexivity)
             ltac:(vm_compute; reflexivity) ltac:(vm_compute; reflexivity)
             ltac:(vm_compute; reflexivity))).
Defined.

(* ================================================================== *)
(** * More of admission control *)

Lemma check_rate_limit_store (uid : string) (limit : Z) (w : World) (c : Client) :
  supabase w = Some c ->
  failing c RpcCheckRateLimit = None ->
  check_rate_limit uid limit w =
  (Ok (match rpc_check_rate_limit c uid limit with
       | Some true => true
       | _ => false
       end),
   set_supabase (add_call w (call_check_rate_limit uid limit)) c).
Proof.
  unfold check_rate_limit. unfold_monad.
  destruct w as [avail sb log now ms]. cbn. intros -> Hf. cbn. rewrite Hf.
  destruct (rpc_check_rate_limit c uid limit) as [[|]|]; reflexivity.
Qed.

(** When the store answers the rate-limit procedure with anything but true,
    a null result included, a resolved request is rejected with 429 and the
    rate-limit message that carries the per-minute limit; the monthly usage
    is not queried. *)
Theorem rate_limit_exceeded
    (G : option Generator) (ep : Endpoint) (a : string)
    (w w1 : World) (user : Principal) (c1 : Client) :
  Py.startswith a "Bearer " = true ->
  DATABASE_AVAILABLE w = true ->
  db_verify_api_key (api_key_of a) (add_call w (call_verify_api_key (Some a)))
    = (Ok (Some user), w1) ->
  supabase w1 = Some c1 ->
  failing c1 RpcCheckRateLimit = None ->
  rpc_check_rate_limit c1 (user_id user) (rate_limit user) <> Some true ->
  fst (respond G ep (Some a) w) =
    Raise (HTTPException 429
      ("Rate limit exceeded. Limit: " ++ Py.str_of_int (rate_limit user) ++
       " requests/minute")) /\
  calls (snd (respond G ep (Some a) w)) =
    calls w ++
    [ call_verify_api_key (Some a);
      call_db_verify_api_key (api_key_of a);
      call_check_rate_limit (user_id user) (rate_limit user) ].
Proof.
  intros Hp Hdb Ekey Hc Hf Hrpc.
  assert (E : verify_api_key (Some a) w =
              (Raise (HTTPException 429 (rate_limit_detail user)),
               set_supabase
                 (add_call w1 (call_check_rate_limit (user_id user) (rate_limit user))) c1)).
  { rewrite verify_api_key_bearer by exact Hp.
    unfold admit_key. unfold bind at 1. unfold get_world at 1.
    cbn [DATABASE_AVAILABLE add_call]. rewrite Hdb. cbn [negb].
    rewrite (bind_step _ _ _ _ _ Ekey).
    rewrite (bind_step _ _ _ _ _ (check_rate_limit_store _ _ _ _ Hc Hf)).
    destruct (rpc_check_rate_limit c1 (user_id user) (rate_limit user)) as [[|]|];
      [congruence | reflexivity | reflexivity]. }
  rewrite (respond_auth_raise _ _ _ _ _ _ E). cbn [fst snd].
  split; [reflexivity|].
  destruct (db_verify_api_key_total (api_key_of a)
              (add_call w (call_verify_api_key (Some a)))) as (o & w1' & E1 & C1 & _).
  rewrite Ekey in E1. injection E1 as _ <-.
  cbn [calls set_supabase add_call]. rewrite C1. cbn [calls add_call].
  repeat rewrite <- app_assoc. reflexivity.
Qed.

Lemma rate_limit_exceeded_witness :
  let c := {| api_keys := api_keys Sample.client;
              users := users Sample.client;
              subscriptions := subscriptions Sample.client;
              usage_logs := [];
              rpc_get_monthly_usage := fun _ => Some 0%Z;
              rpc_check_rate_limit := fun _ _ => None;
              failing := fun _ => None |} in
  fst (respond (Some Sample.counter) one_chunk Sample.bearer (Sample.production c)) =
    Raise (HTTPException 429 "Rate limit exceeded. Limit: 100 requests/minute").
Proof.
  intro c.
  pose (w0 := add_call (Sample.production c) (call_verify_api_key Sample.bearer)).
  exact (proj1 (rate_limit_exceeded (Some Sample.counter) one_chunk
           ("Bearer " ++ Sample.the_key)%string (Sample.production c)
           (snd (db_verify_api_key Sample.the_key w0)) Sample.sample_principal
           (set_api_keys c (map (touch "2024-01-01T00:00:00" "k1") (api_keys c)))
           ltac:(vm_compute; reflexivity) ltac:(reflexivity)
           ltac:(vm_compute; reflexivity) ltac:(vm_compute; reflexivity)
           ltac:(reflexivity) ltac:(vm_compute; discriminate))).
Defined.

Lemma filter_none {A : Type} (p : A -> bool) (l : list A) :
  (forall x, In x l -> p x = false) -> filter p l = [].
Proof.
  induction l as [|x l IH]; intros H; [reflexivity|].
  cbn [filter]. rewrite (H x) by now left.
  apply IH. intros y Hy. apply H. now right.
Qed.

Lemma db_verify_api_key_store (key : string) (w : World) (c : Client) :
  supabase w = Some c ->
  exists c',
    supabase (snd (db_verify_api_key key w)) = Some c' /\
    users c' = users c /\
    subscriptions c' = subscriptions c /\
    usage_logs c' = usage_logs c /\
    failing c' = failing c /\
    rpc_get_monthly_usage c' = rpc_get_monthly_usage c /\
    rpc_check_rate_limit c' = rpc_check_rate_limit c /\
    (api_keys c' = api_keys c \/
     exists now id, api_keys c' = map (touch now id) (api_keys c)) /\
    (fst (db_verify_api_key key w) = Ok None -> c' = c).
Proof.
  unfold db_verify_api_key, select_api_keys, select_users, select_subscriptions,
    update_last_used_at.
  unfold_monad. destruct w as [avail sb log now ms]. cbn. intros ->. cbn.
  assert (Hsame : exists c', Some c = Some c' /\ users c' = users c /\
            subscriptions c' = subscriptions c /\ usage_logs c' = usage_logs c /\
            failing c' = failing c /\
            rpc_get_monthly_usage c' = rpc_get_monthly_usage c /\
            rpc_check_rate_limit c' = rpc_check_rate_limit c /\
            (api_keys c' = api_keys c \/
             exists now id, api_keys c' = map (touch now id) (api_keys c)) /\
            (@Ok (option Principal) None = Ok None -> c' = c)).
  { exists c. repeat split; auto. }
  destruct (failing c SelectApiKeys); [exact Hsame|].
  destruct (filter _ (api_keys c)) as [|k ks]; cbn; [exact Hsame|].
  destruct (failing c SelectUsers); [exact Hsame|].
  destruct (filter _ (users c)) as [|u us]; cbn; [exact Hsame|].
  destruct (failing c SelectSubscriptions); [exact Hsame|].
  destruct (filter _ (subscriptions c)) as [|s ss]; cbn; [exact Hsame|].
  destruct (failing c UpdateApiKeys); cbn; [exact Hsame|].
  eexists. split; [reflexivity|]. cbn.
  repeat split; try reflexivity; [right; eauto | discriminate].
Qed.

Lemma touch_keeps (now id : string) (k : ApiKeyRow) :
  key_id (touch now id k) = key_id k /\
  key_user_id (touch now id k) = key_user_id k /\
  key_hash (touch now id k) = key_hash k /\
  key_active (touch now id k) = key_active k.
Proof. unfold touch. destruct (String.eqb (key_id k) id); cbn; auto. Qed.

Lemma existsb_map {A B : Type} (f : A -> B) (p : B -> bool) (l : list A) :
  existsb p (map f l) = existsb (fun x => p (f x)) l.
Proof. induction l as [|x l IH]; [reflexivity|]. cbn. now rewrite IH. Qed.

Lemma existsb_same {A : Type} (p q : A -> bool) (l : list A) :
  (forall x, p x = q x) -> existsb p l = existsb q l.
Proof. intros H. induction l as [|x l IH]; [reflexivity|]. cbn. now rewrite H, IH. Qed.

Lemma resolvable_same_rows (c c' : Client) (key : string) :
  users c' = users c ->
  subscriptions c' = subscriptions c ->
  (api_keys c' = api_keys c \/
   exists now id, api_keys c' = map (touch now id) (api_keys c)) ->
  resolvable c' key = resolvable c key.
Proof.
  intros Hu Hs Hk. unfold resolvable. rewrite Hu, Hs.
  destruct Hk as [->|(now & id & ->)]; [reflexivity|].
  rewrite existsb_map. apply existsb_same. intros k.
  destruct (touch_keeps now id k) as (_ & -> & -> & ->). reflexivity.
Qed.

Lemma check_rate_limit_supabase (uid : string) (limit : Z) (w : World) :
  supabase (snd (check_rate_limit uid limit w)) = supabase w.
Proof.
  unfold check_rate_limit. unfold_monad.
  destruct w as [avail [c|] log now ms]; cbn; [|reflexivity].
  destruct (failing c RpcCheckRateLimit); reflexivity.
Qed.

Lemma get_monthly_usage_supabase (uid : string) (w : World) :
  supabase (snd (get_monthly_usage uid w)) = supabase w.
Proof.
  unfold get_monthly_usage. unfold_monad.
  destruct w as [avail [c|] log now ms]; cbn; [|reflexivity].
  destruct (failing c RpcGetMonthlyUsage); reflexivity.
Qed.

Lemma admit_key_store (key : string) (w : World) (c : Client) :
  supabase w = Some c ->
  exists c', supabase (snd (admit_key key w)) = Some c' /\ only_stamped c c'.
Proof.
  intros Hc.
  remember (admit_key key w) as out eqn:Eout.
  unfold admit_key in Eout. unfold bind at 1 in Eout. unfold get_world at 1 in Eout.
  assert (Hrefl : only_stamped c c) by (unfold only_stamped; auto 6).
  destruct (negb (DATABASE_AVAILABLE w)).
  - exists c. destruct (String.eqb key "gs_demo_key_12345"); subst out; auto.
  - destruct (db_verify_api_key_store key w c Hc)
      as (c' & Hc' & Hu & Hs & Hl & Hf & _ & _ & Hk & _).
    assert (Hst : only_stamped c c') by (unfold only_stamped; auto).
    destruct (db_verify_api_key_total key w) as (o & w1 & E1 & _).
    rewrite E1 in Hc'. cbn [snd] in Hc'.
    rewrite (bind_step _ _ _ _ _ E1) in Eout.
    exists c'. split; [|exact Hst].
    destruct o as [user|]; [|subst out; exact Hc'].
    pose proof (check_rate_limit_supabase (user_id user) (rate_limit user) w1) as S2.
    destruct (check_rate_limit_total (user_id user) (rate_limit user) w1)
      as (b & w2 & E2 & _).
    rewrite E2 in S2. cbn [snd] in S2.
    rewrite (bind_step _ _ _ _ _ E2) in Eout.
    destruct b; cbn [negb] in Eout; [|subst out; cbn [snd raise]; congruence].
    pose proof (get_monthly_usage_supabase (user_id user) w2) as S3.
    destruct (get_monthly_usage_total (user_id user) w2) as (n & w3 & E3 & _).
    rewrite E3 in S3. cbn [snd] in S3.
    rewrite (bind_step _ _ _ _ _ E3) in Eout.
    destruct (chunks_limit user <=? n)%Z; subst out; cbn [snd raise ret]; congruence.
Qed.

Lemma verify_api_key_store (a : option string) (w : World) (c : Client) :
  supabase w = Some c ->
  exists c', supabase (snd (verify_api_key a w)) = Some c' /\ only_stamped c c'.
Proof.
  intros Hc.
  assert (Hrefl : only_stamped c c) by (unfold only_stamped; auto 6).
  destruct a as [a|].
  - destruct (Py.startswith a "Bearer ") eqn:Hp.
    + rewrite verify_api_key_bearer by exact Hp.
      apply admit_key_store. exact Hc.
    + destruct (verify_api_key_malformed a w Hp) as (d & ->). exists c. auto.
  - destruct (verify_api_key_missing w) as (d & ->). exists c. auto.
Qed.

(** Admission control never changes who can authenticate: whatever the
    header and the outcome, the users, the subscriptions and the usage log
    are as before, every key row keeps its id, owner, digest and active
    flag, and every key resolves after the request exactly if it did
    before. *)
Theorem admission_keeps_resolution (a : option string) (w : World) (c : Client) :
  supabase w = Some c ->
  exists c',
    supabase (snd (verify_api_key a w)) = Some c' /\
    users c' = users c /\
    subscriptions c' = subscriptions c /\
    usage_logs c' = usage_logs c /\
    map key_id (api_keys c') = map key_id (api_keys c) /\
    map key_user_id (api_keys c') = map key_user_id (api_keys c) /\
    map key_hash (api_keys c') = map key_hash (api_keys c) /\
    map key_active (api_keys c') = map key_active (api_keys c) /\
    (forall key, resolvable c' key = resolvable c key).
Proof.
  intros Hc.
  destruct (verify_api_key_store a w c Hc) as (c' & Hc' & Hu & Hs & Hl & Hf & Hk).
  exists c'. split; [exact Hc'|]. split; [exact Hu|]. split; [exact Hs|].
  split; [exact Hl|].
  assert (Hmaps : forall (B : Type) (f : ApiKeyRow -> B),
             (forall now id k, f (touch now id k) = f k) ->
             map f (api_keys c') = map f (api_keys c)).
  { intros B f Hfk. destruct Hk as [->|(now & id & ->)]; [reflexivity|].
    rewrite map_map. apply map_ext. intros k. apply Hfk. }
  split; [apply Hmaps; intros; apply touch_keeps|].
  split; [apply Hmaps; intros; apply touch_keeps|].
  split; [apply Hmaps; intros; apply touch_keeps|].
  split; [apply Hmaps; intros; apply touch_keeps|].
  intros key. apply resolvable_same_rows; assumption.
Qed.

Lemma admission_keeps_resolution_witness :
  exists c',
    supabase (snd (verify_api_key Sample.bearer (Sample.production Sample.client)))
      = Some c' /\
    map key_last_used_at (api_keys c') = [Some "2024-01-01T00:00:00"%string] /\
    resolvable c' Sample.the_key = resolvable Sample.client Sample.the_key.
Proof.
  destruct (admission_keeps_resolution Sample.bearer (Sample.production Sample.client)
              Sample.client eq_refl) as (c' & Hc' & _ & _ & _ & _ & _ & _ & _ & Hres).
  exists c'. split; [exact Hc'|]. split; [|apply Hres].
  assert (E : supabase (snd (verify_api_key Sample.bearer (Sample.production Sample.client)))
              = Some (set_api_keys Sample.client
                        (map (touch "2024-01-01T00:00:00" "k1") (api_keys Sample.client))))
    by (vm_compute; reflexivity).
  rewrite E in Hc'. injection Hc' as <-. vm_compute. reflexivity.
Defined.

(** A key that resolves to no active key row with its user and an active
    subscription (a revoked key among them) is refused with 403, and the
    refusal leaves the store exactly as it was: no timestamp is recorded. *)
Theorem unresolved_key_leaves_store_untouched
    (G : option Generator) (ep : Endpoint) (a : string) (w : World) (c : Client) :
  Py.startswith a "Bearer " = true ->
  DATABASE_AVAILABLE w = true ->
  supabase w = Some c ->
  ((forall k, In k (api_keys c) ->
      key_hash k = hash_api_key (api_key_of a) -> key_active k = false) \/
   resolvable c (api_key_of a) = false) ->
  fst (respond G ep (Some a) w) =
    Raise (HTTPException 403 "Invalid or expired API key") /\
  supabase (snd (respond G ep (Some a) w)) = Some c /\
  calls (snd (respond G ep (Some a) w)) =
    calls w ++ [call_verify_api_key (Some a); call_db_verify_api_key (api_key_of a)].
Proof.
  intros Hp Hdb Hc Hno.
  assert (Hres : resolvable c (api_key_of a) = false).
  { destruct Hno as [Hrev|Hres]; [|exact Hres].
    unfold resolvable. apply not_true_is_false. intros Hex.
    apply existsb_exists in Hex as (k & Hin & Hk).
    apply andb_true_iff in Hk as [Hk _]. apply andb_true_iff in Hk as [Hk _].
    apply andb_true_iff in Hk as [Hh Ha]. apply String.eqb_eq in Hh.
    rewrite (Hrev k Hin Hh) in Ha. discriminate. }
  set (w0 := add_call w (call_verify_api_key (Some a))).
  destruct (db_verify_api_key_unresolvable (api_key_of a) w0) as (w1 & E1).
  { cbn. rewrite Hc. exact Hres. }
  destruct (db_verify_api_key_store (api_key_of a) w0 c Hc)
    as (c' & Hc' & _ & _ & _ & _ & _ & _ & _ & Hsame).
  destruct (db_verify_api_key_total (api_key_of a) w0) as (o & w1' & E1' & C1 & _).
  rewrite E1 in E1'. injection E1' as <- <-.
  rewrite E1 in Hc', Hsame. cbn [fst snd] in Hc', Hsame.
  rewrite (Hsame eq_refl) in Hc'.
  assert (E : verify_api_key (Some a) w =
              (Raise (HTTPException 403 "Invalid or expired API key"), w1)).
  { rewrite verify_api_key_bearer by exact Hp.
    unfold admit_key. unfold bind at 1. unfold get_world at 1.
    cbn [DATABASE_AVAILABLE add_call]. rewrite Hdb. cbn [negb].
    fold w0. rewrite (bind_step _ _ _ _ _ E1). reflexivity. }
  rewrite (respond_auth_raise _ _ _ _ _ _ E). cbn [fst snd].
  split; [reflexivity|]. split; [exact Hc'|].
  rewrite C1. unfold w0. cbn [calls add_call]. now rewrite <- app_assoc.
Qed.

Lemma unresolved_key_leaves_store_untouched_witness :
  let revoked :=
    set_api_keys Sample.client
      [ {| key_id := "k1"; key_user_id := "u1";
           key_hash := hash_api_key Sample.the_key;
           key_prefix := "gs_sample_k"; key_name := "Default API Key";
           key_active := false; key_last_used_at := None |} ] in
  fst (respond (Some Sample.counter) one_chunk Sample.bearer (Sample.production revoked)) =
    Raise (HTTPException 403 "Invalid or expired API key") /\
  supabase (snd (respond (Some Sample.counter) one_chunk Sample.bearer
                   (Sample.production revoked))) = Some revoked.
Proof.
  intro revoked.
  destruct (unresolved_key_leaves_store_untouched (Some Sample.counter) one_chunk
              ("Bearer " ++ Sample.the_key)%string (Sample.production revoked) revoked
              ltac:(vm_compute; reflexivity) eq_refl eq_refl
              ltac:(left; intros k [<-|[]] _; reflexivity)) as (H1 & H2 & _).
  split; [exact H1 | exact H2].
Defined.

Lemma db_verify_api_key_found
    (key : string) (w : World) (c : Client)
    (k : ApiKeyRow) (ks : list ApiKeyRow) (u : UserRow) (us : list UserRow)
    (s : SubscriptionRow) (ss : list SubscriptionRow) :
  supabase w = Some c ->
  failing c SelectApiKeys = None ->
  failing c SelectUsers = None ->
  failing c SelectSubscriptions = None ->
  failing c UpdateApiKeys = None ->
  filter (fun k => String.eqb (key_hash k) (hash_api_key key) && key_active k)
         (api_keys c) = k :: ks ->
  filter (fun u => String.eqb (usr_id u) (key_user_id k)) (users c) = u :: us ->
  filter (fun s => String.eqb (sub_user_id s) (key_user_id k) && sub_active s)
         (subscriptions c) = s :: ss ->
  fst (db_verify_api_key key w) =
    Ok (Some {| user_id := key_user_id k;
                api_key_id := key_id k;
                email := usr_email u;
                tier := sub_tier s;
                chunks_limit := sub_chunks_limit s;
                rate_limit := sub_rate_limit s |}).
Proof.
  intros Hc Fk Fu Fs Fupd Ek Eu Es.
  unfold db_verify_api_key, select_api_keys, select_users, select_subscriptions,
    update_last_used_at.
  unfold_monad. destruct w as [avail sb log now ms]. cbn in Hc. subst sb. cbn.
  rewrite Fk, Ek. cbn. rewrite Fu, Eu. cbn. rewrite Fs, Es. cbn.
  rewrite Fupd. reflexivity.
Qed.

Lemma existsb_filter {A : Type} (p : A -> bool) (l : list A) :
  existsb p l = true -> exists x r, filter p l = x :: r.
Proof.
  intros H. apply existsb_exists in H as (x & Hin & Hp).
  destruct (filter p l) as [|y r] eqn:E; [|eauto].
  assert (In x (filter p l)) as Hx by (apply filter_In; auto).
  rewrite E in Hx. destruct Hx.
Qed.

(** With the store reachable and at most one active key row per digest, key
    resolution returns a principal exactly for the keys that have an active
    row with their digest, whose owner exists and has an active
    subscription. *)
Theorem resolution_iff_resolvable (key : string) (w : World) (c : Client) :
  supabase w = Some c ->
  (forall op, failing c op = None) ->
  (List.length
     (filter (fun k => String.eqb (key_hash k) (hash_api_key key) && key_active k)
             (api_keys c)) <= 1)%nat ->
  (exists p, fst (db_verify_api_key key w) = Ok (Some p)) <->
  resolvable c key = true.
Proof.
  intros Hc Hup Huniq. split.
  - intros [p Hp]. destruct (resolvable c key) eqn:Hres; [reflexivity|].
    destruct (db_verify_api_key_unresolvable key w) as (w' & E).
    { now rewrite Hc. }
    rewrite E in Hp. discriminate.
  - intros Hres. unfold resolvable in Hres.
    apply existsb_exists in Hres as (k & Hin & Hk).
    apply andb_true_iff in Hk as [Hk Hsub]. apply andb_true_iff in Hk as [Hk Husr].
    assert (Hf : In k (filter (fun k => String.eqb (key_hash k) (hash_api_key key)
                                        && key_active k) (api_keys c)))
      by (apply filter_In; auto).
    destruct (filter _ (api_keys c)) as [|k0 ks] eqn:Ek; [destruct Hf|].
    destruct ks as [|k1 ks]; [|cbn in Huniq; lia].
    destruct Hf as [->|[]].
    apply existsb_filter in Husr as (u & us & Eu).
    apply existsb_filter in Hsub as (s & ss & Es).
    eexists.
    apply (db_verify_api_key_found key w c k [] u us s ss); auto.
Qed.

Lemma resolution_iff_resolvable_witness :
  exists p, fst (db_verify_api_key Sample.the_key (Sample.production Sample.client))
            = Ok (Some p).
Proof.
  apply (resolution_iff_resolvable Sample.the_key (Sample.production Sample.client)
           Sample.client eq_refl (fun op => eq_refl)).
  - vm_compute. lia.
  - vm_compute. reflexivity.
Defined.

(** Admission in demo mode: the key decides, nothing is consulted. *)
Lemma demo_mode_admission (a : string) (w : World) :
  DATABASE_AVAILABLE w = false ->
  Py.startswith a "Bearer " = true ->
  verify_api_key (Some a) w =
  (if String.eqb (api_key_of a) "gs_demo_key_12345"
   then Ok {| user_id := "demo-user"; api_key_id := "demo-key";
              email := "demo@goldenseed.io"; tier := "free";
              chunks_limit := 10000; rate_limit := 100 |}
   else Raise (HTTPException 403 "Invalid API key. Use gs_demo_key_12345 for testing."),
   add_call w (call_verify_api_key (Some a))).
Proof.
  intros Hdb Hp. rewrite verify_api_key_bearer by exact Hp.
  unfold admit_key. unfold bind at 1. unfold get_world at 1.
  cbn [DATABASE_AVAILABLE add_call]. rewrite Hdb. cbn [negb].
  destruct (String.eqb (api_key_of a) "gs_demo_key_12345"); reflexivity.
Qed.

(** A demo-mode request with the hardcoded key is answered by the generator
    alone: the response, or the failure, is the one the request and the
    generator determine, nothing is read from or written to a store, and the
    only trace is the two logged calls. *)
Theorem demo_request_served
    (G : option Generator) (a : string) (body : GenerateRequest) (w : World) :
  DATABASE_AVAILABLE w = false ->
  Py.startswith a "Bearer " = true ->
  api_key_of a = "gs_demo_key_12345"%string ->
  valid_GenerateRequest body = true ->
  post_generate G (Some a) body w =
    (generate_answer G body,
     add_call (add_call w (call_verify_api_key (Some a))) (call_generate body)).
Proof.
  intros Hdb Hp Hkey Hv.
  pose proof (demo_mode_admission a w Hdb Hp) as E. rewrite Hkey in E. cbn in E.
  rewrite (post_generate_admitted _ _ _ _ _ _ E), Hv.
  unfold generate_answer. destruct G as [G0|].
  - rewrite generate_spec. cbv zeta. cbn [DATABASE_AVAILABLE add_call]. rewrite Hdb.
    destruct (chunk_stream G0 body); reflexivity.
  - reflexivity.
Qed.

Lemma demo_request_served_witness :
  status (fst (post_generate (Some Sample.counter) (Some "Bearer gs_demo_key_12345"%string)
                 (Sample.request 1 2 binary 3) Sample.demo)) = 200%Z /\
  logged (snd (post_generate (Some Sample.counter) (Some "Bearer gs_demo_key_12345"%string)
                 (Sample.request 1 2 binary 3) Sample.demo)) = [].
Proof.
  rewrite (demo_request_served (Some Sample.counter) "Bearer gs_demo_key_12345"
             (Sample.request 1 2 binary 3) Sample.demo eq_refl)
    by (vm_compute; reflexivity).
  split; vm_compute; reflexivity.
Defined.

(* ================================================================== *)
(** * More of the batch endpoint *)

Lemma generate_without_dict (G : option Generator) (r : GenerateRequest)
    (req : ReqArg) (w : World) :
  exists w',
    generate G r req auth_Depends w =
      (match G with
       | None => Raise (HTTPException 500 "GoldenSeed library not available")
       | Some G0 =>
           match chunk_stream G0 r with
           | Raise e => generation_failed (Raise e)
           | Ok cs =>
               if DATABASE_AVAILABLE w
               then generation_failed
                      (Raise (Exception "'Depends' object is not subscriptable"))
               else generation_failed (response_of r cs)
           end
       end, w') /\
    supabase w' = supabase w /\
    DATABASE_AVAILABLE w' = DATABASE_AVAILABLE w.
Proof.
  exists (add_call w (call_generate r)). split; [|split; reflexivity].
  destruct G as [G0|]; [|reflexivity].
  rewrite generate_spec. cbv zeta.
  destruct (chunk_stream G0 r); [|reflexivity].
  destruct (DATABASE_AVAILABLE w); reflexivity.
Qed.

Lemma batch_loop_answers (G : option Generator) (auth : Principal) (c : Z)
    (ss : list Z) (w : World) :
  exists w',
    for_each
      (fun seed =>
         bind (lift (make_GenerateRequest seed c hex))
              (fun gen_request => generate G gen_request (req_dict auth) auth_Depends))
      ss w =
    (first_failure (map (contained_answer G (DATABASE_AVAILABLE w) c) ss), w') /\
    supabase w' = supabase w /\
    DATABASE_AVAILABLE w' = DATABASE_AVAILABLE w.
Proof.
  revert w. induction ss as [|s ss IH]; intros w.
  - exists w. cbn. auto.
  - cbn [for_each map first_failure]. unfold contained_answer at 1.
    unfold bind at 1. unfold bind at 1. unfold lift at 1.
    destruct (make_GenerateRequest s c hex) as [r|e].
    + destruct (generate_without_dict G r (req_dict auth) w) as (w1 & E1 & S1 & D1).
      rewrite E1.
      set (ans := match G with
                  | None => Raise (HTTPException 500 "GoldenSeed library not available")
                  | Some G0 => _
                  end) in *.
      destruct ans as [x|e].
      * destruct (IH w1) as (w2 & E2 & S2 & D2).
        rewrite D1 in E2.
        unfold bind at 1. rewrite E2.
        exists w2. split.
        -- destruct (first_failure (map (contained_answer G (DATABASE_AVAILABLE w) c) ss));
             reflexivity.
        -- split; congruence.
      * exists w1. auto.
    + exists w. auto.
Qed.

Lemma post_batch_admitted (G : option Generator) (a : option string)
    (body : BatchRequest) (w w1 : World) (p : Principal) :
  verify_api_key a w = (Ok p, w1) ->
  exists w',
    post_batch G a body w =
      (if valid_BatchRequest body
       then match G with
            | None => Raise (HTTPException 500 "GoldenSeed library not available")
            | Some _ =>
                first_failure
                  (map (contained_answer G (DATABASE_AVAILABLE w1) (chunks_per_seed body))
                       (seeds body))
            end
       else Raise (RequestValidationError "body"), w') /\
    supabase w' = supabase w1.
Proof.
  intros E. unfold post_batch. rewrite (bind_step _ _ _ _ _ E).
  destruct (valid_BatchRequest body); [|exists w1; auto].
  unfold batch_generate. destruct G as [G0|]; [|exists w1; auto].
  destruct (batch_loop_answers (Some G0) p (chunks_per_seed body) (seeds body) w1)
    as (w' & E' & S' & _).
  exists w'. rewrite E'. auto.
Qed.

(** A batch request never writes a usage entry, whatever the header, the
    body, the mode and the state of the store: the generation done through
    the batch endpoint is not metered. *)
Theorem batch_never_metered
    (G : option Generator) (a : option string) (body : BatchRequest) (w : World) :
  logged (snd (post_batch G a body w)) = logged w /\
  forall c, supabase w = Some c ->
    exists c', supabase (snd (post_batch G a body w)) = Some c' /\
               usage_logs c' = usage_logs c.
Proof.
  assert (H : logged (snd (post_batch G a body w)) = logged w).
  { pose proof (verify_api_key_logged a w) as L.
    destruct (verify_api_key a w) as [[p|e] w1] eqn:E; cbn [snd] in L.
    - destruct (post_batch_admitted G a body w w1 p E) as (w' & -> & S).
      cbn [snd]. unfold logged in *. now rewrite S.
    - unfold post_batch. now rewrite (bind_raise _ _ _ _ _ E). }
  split; [exact H|].
  intros c Hc. unfold logged in H. rewrite Hc in H.
  destruct (verify_api_key_store a w c Hc) as (c1 & Hc1 & _).
  destruct (verify_api_key a w) as [[p|e] w1] eqn:E; cbn [snd] in Hc1.
  - destruct (post_batch_admitted G a body w w1 p E) as (w' & E' & S).
    rewrite E' in *. cbn [snd] in *. rewrite S, Hc1 in *. eauto.
  - unfold post_batch in *. rewrite (bind_raise _ _ _ _ _ E) in *.
    cbn [snd] in *. rewrite Hc1 in *. eauto.
Qed.

(** With the database module loaded, an admitted batch request with at least
    one seed is never served: the contained call receives no auth dict, and
    the request ends with status 500. *)
Theorem production_batch_fails
    (G : option Generator) (a : option string) (body : BatchRequest)
    (w : World) (p : Principal) :
  DATABASE_AVAILABLE w = true ->
  fst (verify_api_key a w) = Ok p ->
  valid_BatchRequest body = true ->
  seeds body <> [] ->
  status (fst (post_batch G a body w)) = 500%Z.
Proof.
  intros Hdb Hp Hv Hne.
  destruct (verify_api_key_calls a w) as (_ & _ & _ & D & _).
  destruct (verify_api_key a w) as [r w1] eqn:E. cbn [fst snd] in Hp, D. subst r.
  destruct (post_batch_admitted G a body w w1 p E) as (w' & -> & _).
  cbn [fst]. rewrite Hv, D, Hdb.
  destruct G as [G0|]; [|reflexivity].
  destruct (seeds body) as [|s ss]; [congruence|].
  cbn [map first_failure]. unfold contained_answer at 1.
  destruct (make_GenerateRequest s (chunks_per_seed body) hex) as [r|e] eqn:Er.
  - destruct (chunk_stream G0 r); reflexivity.
  - unfold make_GenerateRequest in Er.
    destruct (valid_GenerateRequest _); [discriminate|].
    injection Er as <-. reflexivity.
Qed.

Lemma production_batch_fails_witness :
  status (fst (post_batch (Some Sample.counter) Sample.bearer
                 {| seeds := [5%Z]; chunks_per_seed := 1 |}
                 (Sample.production Sample.client))) = 500%Z.
Proof.
  apply (production_batch_fails (Some Sample.counter) Sample.bearer
           {| seeds := [5%Z]; chunks_per_seed := 1 |}
           (Sample.production Sample.client) Sample.sample_principal eq_refl).
  - vm_compute. reflexivity.
  - reflexivity.
  - discriminate.
Defined.

(** In demo mode a batch is the sequence of its single requests: for an
    admitted batch of non-negative seeds, the results are, in seed order,
    the responses POST /api/v1/generate gives for each seed with format hex,
    skip 0 and the shared chunk count, or the first failure among them. *)
Theorem demo_batch_matches_single
    (G0 : Generator) (a : option string) (body : BatchRequest)
    (w : World) (p : Principal) :
  DATABASE_AVAILABLE w = false ->
  fst (verify_api_key a w) = Ok p ->
  valid_BatchRequest body = true ->
  Forall (fun s => (0 <= s)%Z) (seeds body) ->
  fst (post_batch (Some G0) a body w) =
  first_failure
    (map (fun s =>
            fst (post_generate (Some G0) a
                   {| seed := s; chunks := chunks_per_seed body;
                      format := hex; skip := 0 |} w))
         (seeds body)).
Proof.
  intros Hdb Hp Hv Hseeds.
  destruct (verify_api_key_calls a w) as (_ & _ & _ & D & _).
  destruct (verify_api_key a w) as [r w1] eqn:E. cbn [fst snd] in Hp, D. subst r.
  destruct (post_batch_admitted (Some G0) a body w w1 p E) as (w' & -> & _).
  cbn [fst]. rewrite Hv, D, Hdb. f_equal.
  apply map_ext_in. intros s Hs.
  rewrite Forall_forall in Hseeds. specialize (Hseeds s Hs).
  assert (Hvalid : valid_GenerateRequest
            {| seed := s; chunks := chunks_per_seed body; format := hex; skip := 0 |} = true).
  { unfold valid_BatchRequest in Hv.
    apply andb_true_iff in Hv as [Hv H2]. apply andb_true_iff in Hv as [_ H1].
    unfold valid_GenerateRequest. cbn [seed chunks skip].
    apply Z.leb_le in H1, H2.
    replace (0 <=? s)%Z with true by (symmetry; apply Z.leb_le; lia).
    replace (1 <=? chunks_per_seed body)%Z with true by (symmetry; apply Z.leb_le; lia).
    replace (chunks_per_seed body <=? 10000)%Z with true by (symmetry; apply Z.leb_le; lia).
    reflexivity. }
  rewrite (post_generate_admitted _ _ _ _ _ _ E), Hvalid, generate_with_dict.
  unfold contained_answer, make_GenerateRequest. rewrite Hvalid.
  unfold generate_answer. destruct (chunk_stream G0 _); reflexivity.
Qed.

Lemma demo_batch_matches_single_witness :
  fst (post_batch (Some Sample.counter) (Some "Bearer gs_demo_key_12345"%string)
         {| seeds := [3%Z; 1%Z]; chunks_per_seed := 2 |} Sample.demo) =
  first_failure
    [ fst (post_generate (Some Sample.counter) (Some "Bearer gs_demo_key_12345"%string)
             (Sample.request 3 2 hex 0) Sample.demo);
      fst (post_generate (Some Sample.counter) (Some "Bearer gs_demo_key_12345"%string)
             (Sample.request 1 2 hex 0) Sample.demo) ].
Proof.
  apply (demo_batch_matches_single Sample.counter (Some "Bearer gs_demo_key_12345"%string)
           {| seeds := [3%Z; 1%Z]; chunks_per_seed := 2 |} Sample.demo
           demo_principal eq_refl).
  - vm_compute. reflexivity.
  - reflexivity.
  - repeat constructor; lia.
Defined.

(* ================================================================== *)
(** * More of the coin-flip statistics *)

(** Every coin-flip response is consistent: heads and tails are counts that
    add up to the flips asked for, the ratio is the quotient rounded to six
    decimals, and the message announces a perfect distribution exactly when
    the flag is set. *)
Theorem coinflip_response_consistent
    (G : option Generator) (seed flips : Z) (r : CoinFlipStatsResponse) :
  get_coinflip G seed flips = Ok r ->
  total r = flips /\
  (heads r + tails r = total r)%Z /\
  (0 <= heads r <= flips)%Z /\
  (0 <= tails r <= flips)%Z /\
  heads_ratio r =
    PyFloat.round6 (PrimFloat.div (PyFloat.of_int (heads r)) (PyFloat.of_int flips)) /\
  message r =
    (if perfect_balance r
     then "Generated " ++ Py.format_commas flips ++ " flips with perfect distribution"
     else "Distribution within expected variance")%string.
Proof.
  intros H. apply get_coinflip_Ok in H as [Hflips H].
  unfold coinflip_stats, true_div in H.
  destruct G as [G|]; [|discriminate].
  destruct (advance G (range seed) (gen_start G)) as [g|e]; [|discriminate].
  destruct (flip G (range flips) g 0) as [h|e] eqn:Eh; [|discriminate].
  destruct (flips =? 0)%Z; [discriminate|].
  apply Ok_inj in H. subst r. cbn.
  apply flip_bounds in Eh. unfold range in Eh. rewrite Z2Nat.id in Eh by lia.
  repeat split; lia.
Qed.

Lemma coinflip_response_consistent_witness :
  exists r, get_coinflip (Some (Sample.odd_first 3)) 1 10 = Ok r /\
            heads r = 2%Z /\ tails r = 8%Z.
Proof.
  assert (E : exists r, get_coinflip (Some (Sample.odd_first 3)) 1 10 = Ok r /\
                        heads r = 2%Z).
  { vm_compute. eexists. split; reflexivity. }
  destruct E as (r & E & Hh). exists r. split; [exact E|]. split; [exact Hh|].
  destruct (coinflip_response_consistent (Some (Sample.odd_first 3)) 1 10 r E)
    as (Ht & Hsum & _). lia.
Defined.

Lemma flip_shift (G : Generator) (n : nat) (g : gen_state G) (c d : Z) :
  flip G n g (c + d) =
  match flip G n g c with
  | Ok h => Ok (h + d)%Z
  | Raise e => Raise e
  end.
Proof.
  revert g c. induction n as [|n IH]; intros g c; cbn [flip]; [reflexivity|].
  destruct (gen_next G g) as [[ch g']|e]; [|reflexivity].
  destruct ch as [|b ch']; [reflexivity|].
  destruct (Z.eqb _ 0); [apply IH|].
  replace (c + d + 1)%Z with (c + 1 + d)%Z by lia. apply IH.
Qed.

Lemma flip_split (G : Generator) (n m : nat) (g : gen_state G) (c h : Z) :
  flip G (n + m) g c = Ok h ->
  exists c' g',
    flip G n g c = Ok c' /\ advance G n g = Ok g' /\ flip G m g' c' = Ok h.
Proof.
  revert g c. induction n as [|n IH]; intros g c; cbn [flip advance Nat.add].
  - intros H. eauto.
  - destruct (gen_next G g) as [[ch g']|e]; [|discriminate].
    destruct ch as [|b ch']; [discriminate|].
    destruct (Z.eqb _ 0); apply IH.
Qed.

(** Coin flips add up along the stream: the heads among [n + m] flips from
    position [seed] are the heads among the first [n] plus the heads among
    the [m] flips from position [seed + n]. *)
Theorem coinflip_heads_additive
    (G : option Generator) (seed n m : Z) (r : CoinFlipStatsResponse) :
  (0 <= seed)%Z -> (1 <= n)%Z -> (1 <= m)%Z ->
  coinflip_stats G seed (n + m) = Ok r ->
  exists r1 r2,
    coinflip_stats G seed n = Ok r1 /\
    coinflip_stats G (seed + n) m = Ok r2 /\
    heads r = (heads r1 + heads r2)%Z.
Proof.
  intros Hs Hn Hm H. unfold coinflip_stats, true_div in *.
  destruct G as [G|]; [|discriminate].
  unfold range in *.
  replace (Z.to_nat (seed + n)) with (Z.to_nat seed + Z.to_nat n)%nat by lia.
  rewrite advance_add.
  destruct (advance G (Z.to_nat seed) (gen_start G)) as [g|e]; [|discriminate].
  replace (Z.to_nat (n + m)) with (Z.to_nat n + Z.to_nat m)%nat in H by lia.
  destruct (flip G (Z.to_nat n + Z.to_nat m) g 0) as [h|e] eqn:Eh; [|discriminate].
  apply flip_split in Eh as (c' & g' & E1 & Ea & E2).
  rewrite E1, Ea.
  pose proof (flip_shift G (Z.to_nat m) g' 0 c') as Hsh.
  rewrite Z.add_0_l, E2 in Hsh.
  destruct (flip G (Z.to_nat m) g' 0) as [h2|e]; [|discriminate].
  apply Ok_inj in Hsh.
  destruct (Z.eqb_spec (n + m) 0); [lia|].
  destruct (Z.eqb_spec n 0); [lia|].
  destruct (Z.eqb_spec m 0); [lia|].
  apply Ok_inj in H. subst r.
  eexists. eexists. split; [reflexivity|]. split; [reflexivity|].
  cbn [heads]. lia.
Qed.

Lemma coinflip_heads_additive_witness :
  exists r1 r2,
    coinflip_stats (Some (Sample.odd_first 5)) 2 4 = Ok r1 /\
    coinflip_stats (Some (Sample.odd_first 5)) 6 3 = Ok r2 /\
    (heads r1 + heads r2 = 3)%Z.
Proof.
  assert (E : exists r, coinflip_stats (Some (Sample.odd_first 5)) 2 (4 + 3) = Ok r /\
                        heads r = 3%Z).
  { vm_compute. eexists. split; reflexivity. }
  destruct E as (r & E & Hh).
  destruct (coinflip_heads_additive (Some (Sample.odd_first 5)) 2 4 3 r
              ltac:(lia) ltac:(lia) ltac:(lia) E) as (r1 & r2 & E1 & E2 & Hsum).
  exists r1, r2. split; [exact E1|]. split; [exact E2|]. lia.
Defined.

(* ================================================================== *)
(** * Provisioning *)

Lemma prefix_split (p s : string) :
  String.prefix p s = true -> exists rest, s = (p ++ rest)%string.
Proof.
  revert s. induction p as [|a p IH]; intros s H.
  - exists s. reflexivity.
  - destruct s as [|b s]; [destruct a; discriminate|].
    cbn [String.prefix] in H.
    destruct (ascii_dec a b) as [->|]; [|discriminate].
    apply IH in H as [rest ->]. exists rest. reflexivity.
Qed.

Lemma all_chars_app (p : ascii -> bool) (s t : string) :
  Py.all_chars p (s ++ t) = Py.all_chars p s && Py.all_chars p t.
Proof.
  induction s as [|c s IH]; [reflexivity|].
  cbn [append Py.all_chars]. rewrite IH. now rewrite andb_assoc.
Qed.

Lemma url_safe_no_bearer (s : string) :
  Py.all_chars url_safe s = true -> occurs_nowhere "Bearer " s = true.
Proof.
  induction s as [|c s IH]; [reflexivity|].
  intros H. cbn [occurs_nowhere].
  assert (Hs : Py.all_chars url_safe s = true).
  { cbn [Py.all_chars] in H. now apply andb_true_iff in H as [_ H]. }
  rewrite (IH Hs), andb_true_r. apply negb_true_iff.
  destruct (String.prefix "Bearer " (String c s)) eqn:Hp; [|reflexivity].
  apply prefix_split in Hp as [rest E]. rewrite E in H.
  change ("Bearer " ++ rest)%string with ("Bearer" ++ String " " rest)%string in H.
  rewrite all_chars_app in H. apply andb_true_iff in H as [_ H].
  cbn [Py.all_chars] in H. apply andb_true_iff in H as [H _].
  vm_compute in H. discriminate.
Qed.

Lemma filter_fresh {A : Type} (p : A -> bool) (l : list A) (x : A) :
  (forall y, In y l -> p y = false) -> p x = true ->
  filter p (l ++ [x]) = [x].
Proof.
  intros Hl Hx. rewrite filter_app, (filter_none p l Hl). cbn. now rewrite Hx.
Qed.

Section Provisioned.

Variable env : Supply.
Variables (email tier : string) (billing subscription_ref name : option string).
Variables (w : World) (c : Client).

Hypothesis store_up : supabase w = Some c.
Hypothesis inserts_taken : forall t, insert_failing env t = None.
Hypothesis rows_returned : returns_rows env = true.

Let uid : string := next_user_id env.
Let key : string := ("gs_" ++ token_urlsafe env)%string.

Let user_row : UserRow := {| usr_id := uid; usr_email := email |}.

Let subscription_row : SubscriptionRow :=
  {| sub_user_id := uid;
     sub_tier := tier;
     sub_chunks_limit := fst (tier_limits tier);
     sub_rate_limit := snd (tier_limits tier);
     sub_active := true |}.

Let key_row : ApiKeyRow :=
  {| key_id := next_key_id env;
     key_user_id := uid;
     key_hash := hash_api_key key;
     key_prefix := Py.take 11 key;
     key_name := key_name_or_default name;
     key_active := true;
     key_last_used_at := None |}.

Let c1 : Client := set_users c (users c ++ [user_row]).
Let c2 : Client := set_subscriptions c1 (subscriptions c1 ++ [subscription_row]).
Let c3 : Client := set_api_keys c2 (api_keys c2 ++ [key_row]).

Lemma create_user_done :
  create_user env email billing w = (Ok (Some uid), set_supabase w c1).
Proof.
  unfold create_user, store_insert. unfold_monad.
  rewrite !store_up, (inserts_taken table_users), rows_returned. reflexivity.
Qed.

Lemma create_subscription_done :
  create_subscription env uid tier subscription_ref (set_supabase w c1) =
  (Ok true, set_supabase w c2).
Proof.
  unfold create_subscription, store_insert. unfold_monad. cbn [supabase set_supabase].
  rewrite (inserts_taken table_subscriptions). reflexivity.
Qed.

Lemma create_api_key_done :
  create_api_key env uid name (set_supabase w c2) = (Ok (Some key), set_supabase w c3).
Proof.
  unfold create_api_key, store_insert. unfold_monad. cbn [supabase set_supabase].
  rewrite (inserts_taken table_api_keys). reflexivity.
Qed.

End Provisioned.

(** Provisioning round trip: on a reachable store, creating a user, a
    subscription for it and an API key for it returns a key that resolves to
    the principal of that user, with the limits of the tier, provided the
    ids the store assigns are fresh and no key row already carries the
    digest. *)
Theorem provisioned_key_resolves
    (env : Supply) (email tier : string) (billing subscription_ref name : option string)
    (w : World) (c : Client) :
  supabase w = Some c ->
  (forall t, insert_failing env t = None) ->
  returns_rows env = true ->
  (forall op, failing c op = None) ->
  (forall u, In u (users c) -> usr_id u <> next_user_id env) ->
  (forall s, In s (subscriptions c) -> sub_user_id s <> next_user_id env) ->
  (forall k, In k (api_keys c) ->
     key_hash k <> hash_api_key ("gs_" ++ token_urlsafe env)) ->
  exists w1 w2 w3,
    create_user env email billing w = (Ok (Some (next_user_id env)), w1) /\
    create_subscription env (next_user_id env) tier subscription_ref w1 = (Ok true, w2) /\
    create_api_key env (next_user_id env) name w2
      = (Ok (Some ("gs_" ++ token_urlsafe env)%string), w3) /\
    fst (db_verify_api_key ("gs_" ++ token_urlsafe env) w3) =
      Ok (Some {| user_id := next_user_id env;
                  api_key_id := next_key_id env;
                  email := email;
                  tier := tier;
                  chunks_limit := fst (tier_limits tier);
                  rate_limit := snd (tier_limits tier) |}).
Proof.
  intros Hc Hins Hret Hup Hu Hs Hk.
  pose (urow := {| usr_id := next_user_id env; usr_email := email |}).
  pose (srow := {| sub_user_id := next_user_id env;
                   sub_tier := tier;
                   sub_chunks_limit := fst (tier_limits tier);
                   sub_rate_limit := snd (tier_limits tier);
                   sub_active := true |}).
  pose (krow := {| key_id := next_key_id env;
                   key_user_id := next_user_id env;
                   key_hash := hash_api_key ("gs_" ++ token_urlsafe env);
                   key_prefix := Py.take 11 ("gs_" ++ token_urlsafe env);
                   key_name := key_name_or_default name;
                   key_active := true;
                   key_last_used_at := None |}).
  pose (c1 := set_users c (users c ++ [urow])).
  pose (c2 := set_subscriptions c1 (subscriptions c1 ++ [srow])).
  pose (c3 := set_api_keys c2 (api_keys c2 ++ [krow])).
  exists (set_supabase w c1), (set_supabase w c2), (set_supabase w c3).
  split; [apply (create_user_done env email billing w c Hc Hins Hret)|].
  split; [apply (create_subscription_done env email tier subscription_ref w c Hins)|].
  split; [apply (create_api_key_done env email tier name w c Hins)|].
  apply (db_verify_api_key_found ("gs_" ++ token_urlsafe env) (set_supabase w c3) c3
           krow [] urow [] srow []);
    try reflexivity; try apply Hup.
  - apply filter_fresh.
    + intros k Hin. apply andb_false_iff. left.
      apply String.eqb_neq. now apply Hk.
    + cbn. now rewrite String.eqb_refl.
  - apply filter_fresh.
    + intros u Hin. apply String.eqb_neq. now apply Hu.
    + cbn. apply String.eqb_refl.
  - apply filter_fresh.
    + intros s Hin. apply andb_false_iff. left.
      apply String.eqb_neq. now apply Hs.
    + cbn. now rewrite String.eqb_refl.
Qed.

Lemma provisioned_key_resolves_witness :
  exists w1 w2 w3,
    create_user Sample.supply "new@example.org" None (Sample.production Sample.client)
      = (Ok (Some "u2"%string), w1) /\
    create_subscription Sample.supply "u2" "indie" None w1 = (Ok true, w2) /\
    create_api_key Sample.supply "u2" None w2
      = (Ok (Some "gs_Zk3-q_8sWnB0aXvT5yPLr2dEoGhJcMu7iN1fKlQ9xYw"%string), w3) /\
    fst (db_verify_api_key "gs_Zk3-q_8sWnB0aXvT5yPLr2dEoGhJcMu7iN1fKlQ9xYw" w3) =
      Ok (Some {| user_id := "u2"; api_key_id := "k2"; email := "new@example.org";
                  tier := "indie"; chunks_limit := 1000000; rate_limit := 1000 |}).
Proof.
  apply (provisioned_key_resolves Sample.supply "new@example.org" "indie" None None None
           (Sample.production Sample.client) Sample.client eq_refl
           (fun t => eq_refl) eq_refl (fun op => eq_refl)).
  - intros u [<-|[]]. discriminate.
  - intros s [<-|[]]. discriminate.
  - intros k [<-|[]]. vm_compute. discriminate.
Defined.

(** The header built from a provisioned key is read back as that key: a key
    made of the prefix "gs_" and a URL-safe token contains no "Bearer ", so
    removing the scheme from "Bearer <key>" gives exactly the key. *)
Theorem provisioned_key_header (token : string) :
  Py.all_chars url_safe token = true ->
  Py.startswith ("Bearer " ++ "gs_" ++ token) "Bearer " = true /\
  api_key_of ("Bearer " ++ "gs_" ++ token) = ("gs_" ++ token)%string.
Proof.
  intros Hsafe. split.
  - unfold Py.startswith. cbn. now destruct token.
  - apply api_key_of_plain. apply url_safe_no_bearer.
    rewrite all_chars_app. rewrite Hsafe. reflexivity.
Qed.

Lemma provisioned_key_header_witness :
  api_key_of "Bearer gs_Zk3-q_8sWnB0aXvT5yPLr2dEoGhJcMu7iN1fKlQ9xYw"
  = "gs_Zk3-q_8sWnB0aXvT5yPLr2dEoGhJcMu7iN1fKlQ9xYw"%string.
Proof.
  apply (provisioned_key_header "Zk3-q_8sWnB0aXvT5yPLr2dEoGhJcMu7iN1fKlQ9xYw").
  vm_compute. reflexivity.
Defined.


(** [create_subscription] answers true exactly when the store took the row.
    The row then carries the tier name as given and the limits of that tier,
    the limits of the free tier for a name that is none of free, indie,
    studio, enterprise; the limits are positive, so admission never rejects
    a fresh subscription on an empty month. When it answers false the store
    is as it was. The function never raises. *)
Theorem create_subscription_outcome
    (env : Supply) (uid tier : string) (ref : option string) (w : World) :
  exists ok w',
    create_subscription env uid tier ref w = (Ok ok, w') /\
    (ok = true <->
     (exists c, supabase w = Some c) /\ insert_failing env table_subscriptions = None) /\
    (ok = false -> w' = w) /\
    (ok = true ->
     exists c c' row,
       supabase w = Some c /\ supabase w' = Some c' /\
       subscriptions c' = subscriptions c ++ [row] /\
       sub_user_id row = uid /\ sub_tier row = tier /\ sub_active row = true /\
       (sub_chunks_limit row, sub_rate_limit row) = tier_limits tier /\
       (0 < sub_rate_limit row < sub_chunks_limit row)%Z /\
       (tier <> "indie"%string -> tier <> "studio"%string -> tier <> "enterprise"%string ->
        (sub_chunks_limit row, sub_rate_limit row) = (10000, 100)%Z)).
Proof.
  assert (Hlim : (0 < snd (tier_limits tier) < fst (tier_limits tier))%Z /\
                 (tier <> "indie"%string -> tier <> "studio"%string ->
                  tier <> "enterprise"%string ->
                  (fst (tier_limits tier), snd (tier_limits tier)) = (10000, 100)%Z)).
  { unfold tier_limits.
    destruct (String.eqb_spec tier "free"); [cbn; split; [lia|auto]|].
    destruct (String.eqb_spec tier "indie"); [cbn; split; [lia|congruence]|].
    destruct (String.eqb_spec tier "studio"); [cbn; split; [lia|congruence]|].
    destruct (String.eqb_spec tier "enterprise"); [cbn; split; [lia|congruence]|].
    cbn. split; [lia|auto]. }
  unfold create_subscription, store_insert. unfold_monad.
  destruct w as [avail [c|] log now ms]; cbn [supabase].
  - destruct (insert_failing env table_subscriptions) eqn:Hins.
    + exists false. eexists. split; [reflexivity|].
      split; [split; [discriminate | intros [_ H]; discriminate]|].
      split; [reflexivity | discriminate].
    + exists true. eexists. split; [reflexivity|].
      split; [split; eauto|]. split; [discriminate|]. intros _.
      exists c. eexists. eexists. split; [reflexivity|]. split; [reflexivity|].
      cbn. split; [reflexivity|]. repeat split; try apply Hlim.
      now destruct (tier_limits tier).
  - exists false. eexists. split; [reflexivity|].
    split; [split; [discriminate | intros [[c H] _]; discriminate]|].
    split; [reflexivity | discriminate].
Qed.

Lemma create_subscription_outcome_witness :
  exists w',
    create_subscription Sample.supply "u1" "platinum" None (Sample.production Sample.client)
      = (Ok true, w') /\
    exists c' row,
      supabase w' = Some c' /\
      subscriptions c' = subscriptions Sample.client ++ [row] /\
      sub_tier row = "platinum"%string /\
      (sub_chunks_limit row, sub_rate_limit row) = (10000, 100)%Z.
Proof.
  destruct (create_subscription_outcome Sample.supply "u1" "platinum" None
              (Sample.production Sample.client))
    as (ok & w' & E & Hiff & _ & Hrow).
  assert (Hok : ok = true).
  { apply Hiff. split; [exists Sample.client|]; reflexivity. }
  subst ok. exists w'. split; [exact E|].
  destruct (Hrow eq_refl) as (c & c' & row & Hc & Hc' & Hsub & _ & Ht & _ & _ & _ & Hfree).
  injection Hc as <-.
  exists c', row. split; [exact Hc'|]. split; [exact Hsub|]. split; [exact Ht|].
  apply Hfree; discriminate.
Defined.

Lemma batch_never_metered_witness :
  logged (snd (post_batch (Some Sample.counter) (Some "Bearer gs_demo_key_12345"%string)
                 {| seeds := [1%Z; 2%Z]; chunks_per_seed := 3 |} Sample.demo)) = [] /\
  exists c',
    supabase (snd (post_batch (Some Sample.counter) Sample.bearer
                     {| seeds := [1%Z; 2%Z]; chunks_per_seed := 3 |}
                     (Sample.production Sample.client))) = Some c' /\
    usage_logs c' = [].
Proof.
  split.
  - exact (proj1 (batch_never_metered (Some Sample.counter)
                    (Some "Bearer gs_demo_key_12345"%string)
                    {| seeds := [1%Z; 2%Z]; chunks_per_seed := 3 |} Sample.demo)).
  - exact (proj2 (batch_never_metered (Some Sample.counter) Sample.bearer
                    {| seeds := [1%Z; 2%Z]; chunks_per_seed := 3 |}
                    (Sample.production Sample.client)) Sample.client eq_refl).
Defined.

(* ================================================================== *)
(** * The key a header supplies and the key that is resolved *)

Lemma header_key (a : string) :
  Py.startswith a "Bearer " = true ->
  occurs_nowhere "Bearer " (Py.drop 7 a) = true ->
  api_key_of a = Py.drop 7 a.
Proof.
  intros Hp Hplain. unfold Py.startswith in Hp.
  apply prefix_split in Hp as [rest ->].
  change (Py.drop 7 ("Bearer " ++ rest)) with rest in *.
  now apply api_key_of_plain.
Qed.

(** Where the supplied key, the header after its first seven characters,
    contains no further "Bearer ", the three failures are as the
    specification has them: 401 for no header, 401 for a header without the
    scheme, 403 for a supplied key that does not resolve. *)
Lemma authentication_failures_plain_key
    (G : option Generator) (ep : Endpoint) (w : World) :
  status (fst (respond G ep None w)) = 401%Z /\
  (forall a : string,
      Py.startswith a "Bearer " = false ->
      status (fst (respond G ep (Some a) w)) = 401%Z) /\
  (forall a : string,
      Py.startswith a "Bearer " = true ->
      occurs_nowhere "Bearer " (Py.drop 7 a) = true ->
      resolves w (Py.drop 7 a) = false ->
      status (fst (respond G ep (Some a) w)) = 403%Z).
Proof.
  destruct (authentication_failures G ep w) as (H1 & H2 & H3).
  split; [exact H1|]. split; [exact H2|].
  intros a Hp Hplain Hres. apply H3; [exact Hp|].
  now rewrite (header_key a Hp Hplain).
Qed.

(** C2: a request whose supplied key does not resolve to an active key
    record should fail with 403. The code resolves the header with every
    "Bearer " removed instead of the header after its first seven
    characters: on a store that holds the key "ab" only, the header
    "Bearer aBearer b" supplies the key "aBearer b", which does not resolve,
    and the request is served with status 200. *)
Theorem C2_unresolved_key_admitted :
  let authorization := "Bearer aBearer b"%string in
  let w := Sample.production (Sample.holding "ab") in
  Py.startswith authorization "Bearer " = true /\
  Py.drop 7 authorization = "aBearer b"%string /\
  resolves w "aBearer b" = false /\
  resolves w "ab" = true /\
  status (fst (respond (Some Sample.counter) one_chunk (Some authorization) w)) = 200%Z.
Proof. vm_compute. repeat split. Qed.
